(** * reporte_inscritos: the report builder of [app.py]

    A shallow embedding of [generate_report] (src/app.py, lines 22-146) and of
    the pandas, matplotlib, reportlab and tempfile operations it calls,
    followed by the properties of the report that the specification states.

    - The DataFrame is a list of rows in file order; the three text columns
      hold strings, the column "Hora de inicio" holds either typed
      timestamps (dtype datetime64[ns]) or arbitrary objects (dtype object).
    - The file system is a finite map from paths to file contents.
    - The function runs in a small state-and-exception monad over the pair
      (file system, caller's DataFrame): the source assigns to a column of
      the DataFrame it was given, and it creates, writes and unlinks files. *)

From Stdlib Require Import String Ascii List Arith Lia DecimalString.
From Stdlib Require Import OrdersEx.
From stdpp Require Import base option list strings gmap sorting.

(** ** Timestamps *)

(** A timezone-naive [pandas.Timestamp], by its calendar fields. *)
Record Timestamp := mkTimestamp {
  year : nat; month : nat; day : nat;
  hour : nat; minute : nat; second : nat
}.

(** A value of a datetime64[ns] column: a timestamp or [NaT]. *)
Inductive datetime :=
| NaT
| TS (t : Timestamp).

(** A value of an object column: text still to be parsed, or a value that
    is already a datetime. *)
Inductive cell :=
| Str (s : string)
| Dt (d : datetime).

Global Instance Timestamp_eq_dec : EqDecision Timestamp.
Proof. solve_decision. Defined.
Global Instance datetime_eq_dec : EqDecision datetime.
Proof. solve_decision. Defined.
Global Instance cell_eq_dec : EqDecision cell.
Proof. solve_decision. Defined.

(** Chronological order is the lexicographic order of the fields. *)
Definition lex (c1 c2 : comparison) : comparison :=
  match c1 with Eq => c2 | _ => c1 end.

Definition ts_compare (a b : Timestamp) : comparison :=
  lex (year a ?= year b)
 (lex (month a ?= month b)
 (lex (day a ?= day b)
 (lex (hour a ?= hour b)
 (lex (minute a ?= minute b)
      (second a ?= second b))))).

Definition ts_ltb (a b : Timestamp) : bool :=
  match ts_compare a b with Lt => true | _ => false end.

(** ** Text formatting *)

(** [str(n)] and [f'{n:.0f}'] of a non-negative integer. *)
Definition str_nat (n : nat) : string :=
  NilEmpty.string_of_uint (Nat.to_uint n).

(** [%d], [%m], [%H], [%M]: two digits, zero padded. *)
Definition pad2 (n : nat) : string :=
  if Nat.ltb n 10 then "0" +:+ str_nat n else str_nat n.

(** [strftime('%d/%m/%Y %H:%M')], line 40. *)
Definition strftime_dmY_HM (t : Timestamp) : string :=
  pad2 (day t) +:+ "/" +:+ pad2 (month t) +:+ "/" +:+ str_nat (year t)
  +:+ " " +:+ pad2 (hour t) +:+ ":" +:+ pad2 (minute t).

(** [strftime("%d/%m/%Y")], line 84. *)
Definition strftime_dmY (t : Timestamp) : string :=
  pad2 (day t) +:+ "/" +:+ pad2 (month t) +:+ "/" +:+ str_nat (year t).

(** ** The DataFrame *)

(** One row; [T] is the type of the values of "Hora de inicio". The three
    text columns hold text in every row: a blank cell of the sheet (NaN,
    which [nunique] and [groupby] skip and [drop_duplicates] keeps) is not
    a value of this type, and nothing below speaks of sheets that have
    one. *)
Record Row (T : Type) := mkRow {
  nombre : string;   (* 'Nombre y apellidos completos' *)
  correo : string;   (* 'Correo de contacto' *)
  curso : string;    (* 'Curso de interés' *)
  hora : T           (* 'Hora de inicio' *)
}.
Arguments mkRow {T} _ _ _ _.
Arguments nombre {T} _.
Arguments correo {T} _.
Arguments curso {T} _.
Arguments hora {T} _.

(** The DataFrame with the dtype of its "Hora de inicio" column. *)
Inductive DataFrame :=
| DatetimeFrame (rows : list (Row datetime))   (* dtype datetime64[ns] *)
| ObjectFrame (rows : list (Row cell)).        (* dtype object *)

Definition set_hora {T U} (r : Row T) (h : U) : Row U :=
  mkRow (nombre r) (correo r) (curso r) h.

(** A row without its timestamp: what the aggregation and the rosters read. *)
Definition Inscrito : Type := Row unit.

Definition forget {T} (r : Row T) : Inscrito := set_hora r tt.

Definition inscritos (df : DataFrame) : list Inscrito :=
  match df with
  | DatetimeFrame rows => forget <$> rows
  | ObjectFrame rows => forget <$> rows
  end.

Definition n_rows (df : DataFrame) : nat := length (inscritos df).

(** ** pandas *)

Module pd.

Section dedup.
Context {R K : Type} `{EqDecision K}.
Variable subset : R → K.

(** [DataFrame.drop_duplicates(subset=...)], keep='first': a row is kept
    when no earlier row has the same key. *)
Fixpoint drop_duplicates_from (seen : list K) (rows : list R) : list R :=
  match rows with
  | [] => []
  | r :: rows' =>
      if decide (subset r ∈ seen) then drop_duplicates_from seen rows'
      else r :: drop_duplicates_from (subset r :: seen) rows'
  end.

Definition drop_duplicates (rows : list R) : list R :=
  drop_duplicates_from [] rows.
End dedup.

(** [Series.unique()]: the distinct values in order of first appearance. *)
Definition unique {A} `{EqDecision A} (s : list A) : list A :=
  drop_duplicates id s.

(** [Series.nunique()]. *)
Definition nunique {A} `{EqDecision A} (s : list A) : nat :=
  length (unique s).

(** Python's order on [str]: by code point, which on UTF-8 encoded text is
    the lexicographic order of the bytes. *)
Definition str_le (a b : string) : Prop := String_as_OT.compare a b ≠ Gt.

Global Instance str_le_dec a b : Decision (str_le a b).
Proof. unfold str_le. solve_decision. Defined.

Section stable_sort.
Context {A : Type} (R : relation A) `{∀ a b, Decision (R a b)}.

(** The sort behind [sort_values] and [groupby]: elements that compare
    equal stay in the order they had (numpy sorts a short array by
    insertion; on a long one its quicksort fixes no order for them). *)
Fixpoint insert_sorted (x : A) (l : list A) : list A :=
  match l with
  | [] => [x]
  | y :: l' => if decide (R x y) then x :: y :: l' else y :: insert_sorted x l'
  end.

Definition stable_sort (l : list A) : list A := foldr insert_sorted [] l.
End stable_sort.

(** [sort_values(col)]: ascending by the values of one column, rows with
    equal values in the order they had. *)
Definition sort_values {R K} (col : R → K) (le : relation K)
    `{∀ a b, Decision (le a b)} (rows : list R) : list R :=
  stable_sort (λ a b, le (col a) (col b)) rows.

(** [sort_values(col, ascending=False)]: pandas reverses, sorts and
    reverses again, so rows with equal values keep their order here too. *)
Definition sort_values_desc {R K} (col : R → K) (le : relation K)
    `{∀ a b, Decision (le a b)} (rows : list R) : list R :=
  stable_sort (λ a b, le (col b) (col a)) rows.

(** [df[df[col] == v]]. *)
Definition where_eq {R K} `{EqDecision K} (col : R → K) (v : K)
    (rows : list R) : list R :=
  filter (λ r, col r = v) rows.

(** [df.groupby(by).agg({col: 'nunique'})]: one line per distinct key, keys
    in ascending order (sort=True), each with the number of distinct values
    of [col] among the rows of the group. *)
Definition groupby_nunique {R} (by_ col : R → string) (rows : list R)
    : list (string * nat) :=
  (λ k, (k, nunique (col <$> where_eq by_ k rows)))
    <$> stable_sort str_le (unique (by_ <$> rows)).

(** [Series.min()] and [Series.max()] of a datetime column, skipna=True:
    [NaT] when no value is left. *)
Definition dropna (s : list datetime) : list Timestamp :=
  omap (λ d, match d with NaT => None | TS t => Some t end) s.

Definition ts_min (a b : Timestamp) : Timestamp := if ts_ltb b a then b else a.
Definition ts_max (a b : Timestamp) : Timestamp := if ts_ltb a b then b else a.

Definition reduce (f : Timestamp → Timestamp → Timestamp) (s : list datetime)
    : datetime :=
  match dropna s with
  | [] => NaT
  | t :: ts => TS (foldl f t ts)
  end.

Definition min (s : list datetime) : datetime := reduce ts_min s.
Definition max (s : list datetime) : datetime := reduce ts_max s.

End pd.

(** ** matplotlib: the bar chart *)

(** [plt.bar(x, height)] draws one bar per entry, left to right; [plt.text]
    puts a label above each of them. *)
Record Bar := mkBar { bar_x : string; bar_height : nat }.

Record Figure := mkFigure {
  bars : list Bar;
  bar_labels : list string
}.

(** ** reportlab: the document *)

Inductive Style :=
| TituloReporte | SubtituloReporte | Normal | FechaReporte | AutorReporte.

Definition inch : nat := 72.

(** The flowables the source appends to [elementos]. Lengths are in points.
    The [TableStyle] of lines 126-135 is the same for every table and
    carries no data; it is left out. *)
Inductive Flowable :=
| Paragraph (text : string) (style : Style)
| Spacer (width height : nat)
| Image (filename : string) (width height : nat)
| Table (data : list (list string)) (colWidths : list nat).

(** ** The file system and the caller's DataFrame *)

Inductive File :=
| EmptyFile                          (* as created by NamedTemporaryFile *)
| PngFile (fig : Figure)             (* written by plt.savefig *)
| PdfFile (story : list Flowable) (images : list Figure).
                                     (* written by doc.build: the story and
                                        the images it embeds, in order *)

Record World := mkWorld {
  fs : gmap string File;
  df : DataFrame
}.

(** What Python raises inside [generate_report]. *)
Inductive exn :=
| ValueError_to_datetime     (* pd.to_datetime: a value that is no date *)
| ValueError_NaT_strftime    (* NaT.strftime: "NaTType does not support strftime" *)
| Error_savefig              (* plt.savefig failed *)
| Error_build.               (* doc.build failed *)

(** The two parsing failures are the specification's ValidationError, the
    two backend failures its RenderError. *)
Definition is_ValidationError (e : exn) : bool :=
  match e with
  | ValueError_to_datetime | ValueError_NaT_strftime => true
  | _ => false
  end.

Definition is_RenderError (e : exn) : bool :=
  match e with
  | Error_savefig | Error_build => true
  | _ => false
  end.

Inductive outcome (A : Type) :=
| Return (a : A)
| Raise (e : exn).
Arguments Return {A} _.
Arguments Raise {A} _.

(** Computations that read and write the world and may raise. *)
Definition M (A : Type) : Type := World → outcome A * World.

Global Instance M_ret : MRet M := λ A a w, (Return a, w).
Global Instance M_bind : MBind M := λ A B k m w,
  match m w with
  | (Return a, w') => k a w'
  | (Raise e, w') => (Raise e, w')
  end.

Definition raise {A} (e : exn) : M A := λ w, (Raise e, w).
Definition get_df : M DataFrame := λ w, (Return (df w), w).
Definition set_df (d : DataFrame) : M unit :=
  λ w, (Return tt, mkWorld (fs w) d).
Definition modify_fs (f : gmap string File → gmap string File) : M unit :=
  λ w, (Return tt, mkWorld (f (fs w)) (df w)).

(** What the environment decides for one call: the clock, the names
    [tempfile] picks, and whether the two rendering backends succeed. *)
Record Env := mkEnv {
  now : Timestamp;
  tmp_pdf : string;
  tmp_chart : string;
  savefig_ok : bool;
  build_ok : bool
}.

(** [with tempfile.NamedTemporaryFile(delete=False, suffix=...) as f]: the
    file is created empty and stays after the [with] block. *)
Definition NamedTemporaryFile (name : string) : M string :=
  modify_fs (<[name := EmptyFile]>) ;; mret name.

(** [plt.savefig(path)]. *)
Definition savefig (env : Env) (path : string) (fig : Figure) : M unit :=
  if savefig_ok env then modify_fs (<[path := PngFile fig]>)
  else raise Error_savefig.

(** [SimpleDocTemplate(path).build(story)]: every [Image] of the story is
    read from its file and embedded; a file that is missing or is no image
    makes the build fail. *)
Definition image_filenames (story : list Flowable) : list string :=
  omap (λ f, match f with Image name _ _ => Some name | _ => None end) story.

Definition read_image (files : gmap string File) (name : string)
    : option Figure :=
  match files !! name with
  | Some (PngFile fig) => Some fig
  | _ => None
  end.

Definition build (env : Env) (path : string) (story : list Flowable) : M unit :=
  λ w,
    if build_ok env then
      match mapM (read_image (fs w)) (image_filenames story) with
      | Some figs => modify_fs (<[path := PdfFile story figs]>) w
      | None => raise Error_build w
      end
    else raise Error_build w.

(** [os.unlink(path)]. *)
Definition unlink (path : string) : M unit := modify_fs (delete path).

(** [d.strftime('%d/%m/%Y %H:%M')] on the result of [min()] or [max()]. *)
Definition strftime (d : datetime) : M string :=
  match d with
  | NaT => raise ValueError_NaT_strftime
  | TS t => mret (strftime_dmY_HM t)
  end.

(** ** generate_report *)

(** Lines 44-46: [conteo_cursos], the index (course) with its column
    'Cantidad de inscritos', sorted by that column, largest first. *)
Definition conteo_cursos {T} (rows : list (Row T)) : list (string * nat) :=
  pd.sort_values_desc snd le (pd.groupby_nunique curso nombre rows).

(** Lines 49-56: one bar per line of [conteo_cursos], each labelled with
    its height. *)
Definition bar_chart (conteo : list (string * nat)) : Figure :=
  let bs := (λ c, mkBar c.1 c.2) <$> conteo in
  mkFigure bs ((λ b, str_nat (bar_height b)) <$> bs).

(** Lines 107-113: the rows of one course, without duplicates of
    (name, e-mail), sorted by name. *)
Definition curso_df {T} (rows : list (Row T)) (c : string) : list (Row T) :=
  pd.sort_values nombre pd.str_le
    (pd.drop_duplicates (λ r, (nombre r, correo r))
       (pd.where_eq curso c rows)).

(** Lines 116-119. *)
Definition datos_tabla {T} (rows : list (Row T)) (c : string)
    : list (list string) :=
  ["Nombre y Apellidos"; "Correo de contacto"]
    :: ((λ r, [nombre r; correo r]) <$> curso_df rows c).

(** Line 122. *)
Definition titulo_curso (c : string) (datos : list (list string)) : string :=
  "Curso: " +:+ c +:+ " (" +:+ str_nat (length datos - 1) +:+ " inscritos)".

(** Lines 105-138: the three flowables of one course. *)
Definition seccion_curso {T} (rows : list (Row T)) (c : string)
    : list Flowable :=
  let datos := datos_tabla rows c in
  [ Paragraph (titulo_curso c datos) Normal;
    Table datos [7 * inch / 2; 7 * inch / 2];
    Spacer 1 (inch / 4) ].

(** Lines 81-138: the whole story. *)
Definition elementos {T} (rows : list (Row T)) (conteo : list (string * nat))
    (total_inscritos : nat) (fecha_min fecha_max fecha_actual : string)
    (author_name chart_path : string) : list Flowable :=
  [ Paragraph "REPORTE DE INSCRIPCIONES A CURSOS" TituloReporte;
    Paragraph ("Fecha de elaboración: " +:+ fecha_actual) FechaReporte;
    Paragraph ("Elaborado por: " +:+ author_name) AutorReporte;
    Spacer 1 (inch / 4);
    Paragraph "Información General" SubtituloReporte;
    Paragraph ("Total de personas inscritas: <b>" +:+ str_nat total_inscritos
               +:+ "</b>") Normal;
    Paragraph ("Fecha de inicio de inscripciones: <b>" +:+ fecha_min
               +:+ "</b>") Normal;
    Paragraph ("Fecha de finalización de inscripciones: <b>" +:+ fecha_max
               +:+ "</b>") Normal;
    Spacer 1 (inch / 4);
    Paragraph "Distribución de Inscripciones por Curso" SubtituloReporte;
    Image chart_path (7 * inch) (9 * inch / 2);
    Spacer 1 (inch / 4);
    Paragraph "Detalle de Inscritos por Curso" SubtituloReporte ]
  ++ (conteo.*1 ≫= seccion_curso rows).

Section generate_report.

(** The date parser behind [pd.to_datetime], on one text value of the
    column at hand: [None] when the text is no date (the call raises),
    [Some NaT] for the texts pandas reads as a missing value. *)
Variable parse_datetime : string → option datetime.

Definition to_datetime_cell (c : cell) : option datetime :=
  match c with
  | Str s => parse_datetime s
  | Dt d => Some d
  end.

(** [pd.to_datetime(df['Hora de inicio'])], errors='raise'. *)
Definition to_datetime (rows : list (Row cell))
    : option (list (Row datetime)) :=
  mapM (λ r, set_hora r <$> to_datetime_cell (hora r)) rows.

(** Lines 37-38: the column is converted in place, in the DataFrame the
    caller passed. *)
Definition convert_hora_de_inicio : M (list (Row datetime)) :=
  d ← get_df;
  match d with
  | DatetimeFrame rows => mret rows
  | ObjectFrame rows =>
      match to_datetime rows with
      | None => raise ValueError_to_datetime
      | Some rows' => set_df (DatetimeFrame rows') ;; mret rows'
      end
  end.

(** Lines 22-146, statement by statement. An exception leaves the world as
    it is at that point: the source has no [try] and no [finally]. *)
Definition generate_report (env : Env) (author_name : string) : M string :=
  pdf_path ← NamedTemporaryFile (tmp_pdf env);
  chart_path ← NamedTemporaryFile (tmp_chart env);
  d ← get_df;
  let total_inscritos := pd.nunique (nombre <$> inscritos d) in
  rows ← convert_hora_de_inicio;
  fecha_min ← strftime (pd.min (hora <$> rows));
  fecha_max ← strftime (pd.max (hora <$> rows));
  let conteo := conteo_cursos rows in
  savefig env chart_path (bar_chart conteo) ;;
  let fecha_actual := strftime_dmY (now env) in
  let story := elementos rows conteo total_inscritos fecha_min fecha_max
                 fecha_actual author_name chart_path in
  build env pdf_path story ;;
  unlink chart_path ;;
  mret pdf_path.

(** Lines 199-206 of [main]: the caller reads the PDF and unlinks it. *)
Definition generar_reporte_pdf (env : Env) (author_name : string) : M File :=
  pdf_path ← generate_report env author_name;
  pdf_bytes ← (λ w, (Return (default EmptyFile (fs w !! pdf_path)), w));
  unlink pdf_path ;;
  mret pdf_bytes.

End generate_report.

(** ** A date parser to run the model with *)

(** Every result below holds for any parser; this one instantiates them
    on examples. It reads the two ISO formats "YYYY-MM-DD HH:MM:SS" and
    "YYYY-MM-DD" (midnight), for dates of the calendar in the years a
    datetime64[ns] holds in full, and the empty text and "NaT" as a missing
    value. [pd.to_datetime] reads more formats than these two; the
    examples use no text in another format that it would read. *)
Definition digits (s : string) : option nat :=
  Nat.of_uint <$> NilEmpty.uint_of_string s.

Definition leap_year (y : nat) : bool :=
  (y mod 4 =? 0) && (negb (y mod 100 =? 0) || (y mod 400 =? 0)).

Definition days_in_month (y m : nat) : nat :=
  match m with
  | 2 => if leap_year y then 29 else 28
  | 4 | 6 | 9 | 11 => 30
  | _ => 31
  end.

Definition parse_date (s : string) : option (nat * nat * nat) :=
  if decide (String.length s = 10 ∧ substring 4 1 s = "-"
             ∧ substring 7 1 s = "-")
  then
    y ← digits (substring 0 4 s);
    m ← digits (substring 5 2 s);
    d ← digits (substring 8 2 s);
    if decide (1678 ≤ y ≤ 2261 ∧ 1 ≤ m ≤ 12 ∧ 1 ≤ d ≤ days_in_month y m)
    then Some (y, m, d)
    else None
  else None.

Definition parse_time (s : string) : option (nat * nat * nat) :=
  if decide (String.length s = 8 ∧ substring 2 1 s = ":"
             ∧ substring 5 1 s = ":")
  then
    hh ← digits (substring 0 2 s);
    mm ← digits (substring 3 2 s);
    ss ← digits (substring 6 2 s);
    if decide (hh < 24 ∧ mm < 60 ∧ ss < 60) then Some (hh, mm, ss) else None
  else None.

Definition parse_iso (s : string) : option datetime :=
  if decide (s = "" ∨ s = "NaT") then Some NaT
  else if decide (String.length s = 10) then
    '(y, m, d) ← parse_date s;
    Some (TS (mkTimestamp y m d 0 0 0))
  else if decide (String.length s = 19 ∧ substring 10 1 s = " ") then
    '(y, m, d) ← parse_date (substring 0 10 s);
    '(hh, mm, ss) ← parse_time (substring 11 8 s);
    Some (TS (mkTimestamp y m d hh mm ss))
  else None.

(** ** The terms of the specification *)

Module Spec.

(** The distinct fullName values of a set of records. *)
Definition names {T} (rows : list (Row T)) : gset string :=
  list_to_set (nombre <$> rows).

(** The distinct (fullName, contactEmail) pairs of a set of records. *)
Definition pairs {T} (rows : list (Row T)) : gset (string * string) :=
  list_to_set ((λ r, (nombre r, correo r)) <$> rows).

(** The records of one course. *)
Definition of_course {T} (c : string) (rows : list (Row T)) : list (Row T) :=
  filter (λ r, curso r = c) rows.

(** totalUniqueEnrollees: the number of distinct fullName values. *)
Definition totalUniqueEnrollees (d : DataFrame) : nat :=
  size (names (inscritos d)).

(** courseCount: the number of distinct (fullName, contactEmail) pairs of
    the course. *)
Definition courseCount {T} (rows : list (Row T)) (c : string) : nat :=
  size (pairs (of_course c rows)).

(** The number of distinct fullName values of the course. *)
Definition courseNames {T} (rows : list (Row T)) (c : string) : nat :=
  size (names (of_course c rows)).

(** The text of a document: its paragraphs and the cells of its tables,
    in order. *)
Definition text_of (f : Flowable) : list (string + list (list string)) :=
  match f with
  | Paragraph text _ => [inl text]
  | Table data _ => [inr data]
  | _ => []
  end.

Definition textual_content (story : list Flowable)
    : list (string + list (list string)) :=
  story ≫= text_of.

(** The line of the title block that carries the generation date. *)
Definition fecha_de_elaboracion (t : Timestamp)
    : string + list (list string) :=
  inl ("Fecha de elaboración: " +:+ strftime_dmY t).

(** A record whose startTime cannot be parsed as a date/time. *)
Definition unparsable (parse : string → option datetime) (c : cell) : bool :=
  match c with
  | Str s => bool_decide (parse s = None)
  | Dt _ => false
  end.

Definition has_unparsable (parse : string → option datetime)
    (d : DataFrame) : bool :=
  match d with
  | DatetimeFrame _ => false
  | ObjectFrame rows => existsb (λ r, unparsable parse (hora r)) rows
  end.

End Spec.

(** The rows [generate_report] works on after lines 37-38, if the
    conversion succeeds. *)
Definition hora_rows (parse : string → option datetime) (d : DataFrame)
    : option (list (Row datetime)) :=
  match d with
  | DatetimeFrame rows => Some rows
  | ObjectFrame rows => to_datetime parse rows
  end.

(** The file system once the two temporary files exist. *)
Definition tmp_created (env : Env) (files : gmap string File)
    : gmap string File :=
  <[tmp_chart env := EmptyFile]> (<[tmp_pdf env := EmptyFile]> files).

(** The first thirteen flowables: title block, general information, chart. *)
Definition encabezado (total_inscritos : nat)
    (fecha_min fecha_max fecha_actual author_name chart_path : string)
    : list Flowable :=
  take 13 (elementos (@nil (Row unit)) [] total_inscritos fecha_min fecha_max
             fecha_actual author_name chart_path).

(** The (name, e-mail) pairs of the table of a course, top to bottom. *)
Definition roster {T} (rows : list (Row T)) (c : string)
    : list (string * string) :=
  (λ r, (nombre r, correo r)) <$> curso_df rows c.

(** ** Example data *)

Module Ejemplo.

Definition autor : string := "Oscar Ivan Vargas Pineda".

Definition env : Env :=
  mkEnv (mkTimestamp 2025 4 15 7 39 38)
    "/tmp/tmpk3v9x1.pdf" "/tmp/tmpq7w2m4.png" true true.

Definition env' : Env :=
  mkEnv (mkTimestamp 2025 4 16 9 0 0)
    "/tmp/tmpz8d0aa.pdf" "/tmp/tmpc5r6tt.png" true true.

(** Three records, two people: A twice in "Course X" with the same
    e-mail, B once in "Course Y". *)
Definition escenario : DataFrame := ObjectFrame
  [ mkRow "A" "a@mail.org" "Course X" (Str "2025-03-01 08:15:00");
    mkRow "B" "b@mail.org" "Course Y" (Str "2025-03-02 10:30:00");
    mkRow "A" "a@mail.org" "Course X" (Str "2025-03-05 18:45:00") ].

(** Two people called Ana Ruiz, with different e-mails, in one course. *)
Definition homonimos : DataFrame := ObjectFrame
  [ mkRow "Ana Ruiz" "ana.ruiz@mail.org" "Excel" (Str "2025-03-01 08:15:00");
    mkRow "Ana Ruiz" "aruiz@corp.com" "Excel" (Str "2025-03-02 10:30:00") ].

(** The same name under three e-mails in one course, two names in
    another. *)
Definition tres_correos : DataFrame := ObjectFrame
  [ mkRow "Ana Ruiz" "ana1@mail.org" "Excel" (Str "2025-03-01 08:15:00");
    mkRow "Ana Ruiz" "ana2@mail.org" "Excel" (Str "2025-03-01 09:15:00");
    mkRow "Ana Ruiz" "ana3@mail.org" "Excel" (Str "2025-03-01 10:15:00");
    mkRow "Luis Paz" "luis@mail.org" "Python" (Str "2025-03-02 10:30:00");
    mkRow "Eva Gil" "eva@mail.org" "Python" (Str "2025-03-03 11:00:00") ].

(** A sheet with the four columns and no record. *)
Definition vacio : DataFrame := ObjectFrame [].

(** A record whose "Hora de inicio" is no date. *)
Definition fecha_mala : DataFrame := ObjectFrame
  [ mkRow "A" "a@mail.org" "Course X" (Str "2025-03-01 08:15:00");
    mkRow "B" "b@mail.org" "Course Y" (Str "mañana") ].

Definition mundo (d : DataFrame) : World := mkWorld ∅ d.

End Ejemplo.

(** ** More on the order of timestamps *)

(** [ts_compare] is the lexicographic combination of the comparisons of
    the six fields. *)
Definition by_field (f : Timestamp → nat) (a b : Timestamp) : comparison :=
  f a ?= f b.

Definition lexc (c1 c2 : Timestamp → Timestamp → comparison)
    (a b : Timestamp) : comparison :=
  lex (c1 a b) (c2 a b).

(** What makes a three-way comparison a total preorder. *)
Definition good_cmp (cmp : Timestamp → Timestamp → comparison) : Prop :=
  (∀ a b, cmp b a = CompOpp (cmp a b))
  ∧ (∀ a b c, cmp a b = Lt → cmp b c = Lt → cmp a c = Lt)
  ∧ (∀ a b c, cmp a b = Eq → cmp a c = cmp b c).

(** ** Streamlit: what [main] shows *)

(** The value of a metric: [nunique()] gives an integer, the date range is
    a text. *)
Inductive Valor :=
| Entero (n : nat)
| Texto (s : string).

(** The elements [main] puts on the page, and in the sidebar. *)
Inductive Elemento :=
| st_title (body : string)
| st_markdown (body : string)
| st_file_uploader (label : string) (type : list string)
| st_text_input (label value : string)
| st_error (body : string)
| st_error_str (prefix : string) (e : exn)   (* st.error(f"{prefix}{str(e)}") *)
| st_exception (e : exn)
| st_success (body : string)
| st_subheader (body : string)
| st_dataframe (data : DataFrame)
| st_metric (label : string) (value : Valor)
| st_button (label : string)
| st_download_button (label : string) (data : File) (file_name mime : string)
| st_sidebar_header (body : string)
| st_sidebar_info (body : string)
| st_sidebar_markdown (body : string).

(** One run of the script: the world and the elements shown so far. *)
Record Pagina := mkPagina {
  world : World;
  shown : list Elemento
}.

Definition UI (A : Type) : Type := Pagina → outcome A * Pagina.

Global Instance UI_ret : MRet UI := λ A a p, (Return a, p).
Global Instance UI_bind : MBind UI := λ A B k m p,
  match m p with
  | (Return a, p') => k a p'
  | (Raise e, p') => (Raise e, p')
  end.

(** A computation on the world, run from the page. *)
Definition lift {A} (m : M A) : UI A := λ p,
  let '(r, w') := m (world p) in (r, mkPagina w' (shown p)).

Definition show (e : Elemento) : UI unit := λ p,
  (Return tt, mkPagina (world p) (shown p ++ [e])).

(** [try: body except Exception as e: handler]. *)
Definition try_except {A} (body : UI A) (handler : exn → UI A) : UI A := λ p,
  match body p with
  | (Raise e, p') => handler e p'
  | r => r
  end.

(** [str(n)] of an integer. *)
Definition str_Z (z : Z) : string := NilEmpty.string_of_int (Z.to_int z).

(** [sep.join(l)]. *)
Definition str_join (sep : string) (l : list string) : string :=
  match l with
  | [] => ""
  | x :: l' => foldl (λ acc y, acc +:+ sep +:+ y) x l'
  end.

(** [df.head()]: the first five rows. *)
Definition head (d : DataFrame) : DataFrame :=
  match d with
  | DatetimeFrame rows => DatetimeFrame (take 5 rows)
  | ObjectFrame rows => ObjectFrame (take 5 rows)
  end.

(** ** main *)

(** Line 170. *)
Definition required_columns : list string :=
  [ "Nombre y apellidos completos"; "Correo de contacto";
    "Curso de interés"; "Hora de inicio" ].

(** Line 171: [[col for col in required_columns if col not in df.columns]]. *)
Definition missing_columns (columns : list string) : list string :=
  filter (λ col, col ∉ columns) required_columns.

(** Line 174. *)
Definition error_columnas (missing : list string) : Elemento :=
  st_error ("El archivo Excel no contiene las siguientes columnas requeridas: "
            +:+ str_join ", " missing).

(** Lines 218-220. *)
Definition except_Exception (e : exn) : UI unit :=
  show (st_error_str "Error al procesar el archivo: " e) ;;
  show (st_exception e).

(** Lines 152-157 and 160-163: the head of the page. [author_name] is the
    content of the text input, "Oscar Ivan Vargas Pineda" unless the user
    typed another. *)
Definition cabecera (author_name : string) : UI unit :=
  show (st_title "📊 Generador de Reportes de Inscripciones a Cursos") ;;
  show (st_markdown "
    Esta aplicación genera un reporte PDF detallado de inscripciones a cursos a partir de un archivo Excel.
    
    Simplemente sube tu archivo Excel con los datos de inscripción y haz clic en 'Generar Reporte'.
    ") ;;
  show (st_file_uploader "Carga tu archivo Excel de inscripciones" ["xlsx"]) ;;
  show (st_text_input "Nombre del autor del reporte" author_name).

(** Lines 223-242: the sidebar. *)
Definition barra_lateral : UI unit :=
  show (st_sidebar_header "Información") ;;
  show (st_sidebar_info "
    **Formato del archivo Excel requerido**
    
    El archivo Excel debe contener las siguientes columnas:
    - Nombre y apellidos completos
    - Correo de contacto
    - Curso de interés
    - Hora de inicio
    
    Las fechas deben estar en un formato reconocible por pandas.
    ") ;;
  show (st_sidebar_header "Acerca de") ;;
  show (st_sidebar_markdown "
    Esta aplicación fue creada como una herramienta para generar reportes
    de inscripciones a cursos a partir de datos en Excel.
    
    Desarrollado con Streamlit y ReportLab.
    ").

Section main.

(** The date parser behind [pd.to_datetime], as for [generate_report]. *)
Variable parse_datetime : string → option datetime.

(** [(a - b).days] of two timestamps: the whole days of their difference,
    rounded down. *)
Variable dias : Timestamp → Timestamp → Z.

(** Line 193: [f"{(max - min).days} días"]; the difference of [NaT] is
    [NaT], whose [days] is nan. *)
Definition date_range (rows : list (Row datetime)) : string :=
  match pd.max (hora <$> rows), pd.min (hora <$> rows) with
  | TS a, TS b => str_Z (dias a b) +:+ " días"
  | _, _ => "nan días"
  end.

(** Lines 167-216, the body of the [try]. [columns] is [df.columns] of the
    sheet [pd.read_excel] has read; the DataFrame of the world holds its
    four required columns, which are only read when all four are there.
    [st.columns] and [st.spinner] only lay the elements out and are not
    elements of their own. *)
Definition procesar (columns : list string) (author_name : string)
    (button : bool) (env : Env) : UI unit :=
  let missing := missing_columns columns in
  if decide (missing ≠ []) then show (error_columnas missing)
  else
    show (st_success "Archivo cargado correctamente") ;;
    show (st_subheader "Vista previa de los datos") ;;
    d ← lift get_df;
    show (st_dataframe (head d)) ;;
    show (st_subheader "Estadísticas generales") ;;
    show (st_metric "Total Inscritos"
            (Entero (pd.nunique (nombre <$> inscritos d)))) ;;
    show (st_metric "Total Cursos"
            (Entero (pd.nunique (curso <$> inscritos d)))) ;;
    (if decide ("Hora de inicio" ∈ columns) then
       rows ← lift (convert_hora_de_inicio parse_datetime);
       show (st_metric "Rango de Fechas" (Texto (date_range rows)))
     else mret tt) ;;
    show (st_button "Generar Reporte PDF") ;;
    if button then
      pdf_bytes ← lift (generar_reporte_pdf parse_datetime env author_name);
      show (st_download_button "Descargar Reporte PDF" pdf_bytes
              "reporte_inscritos.pdf" "application/pdf") ;;
      show (st_success "¡Reporte generado con éxito!")
    else mret tt.

(** Lines 149-242. [uploaded_file] is [None] when no file was uploaded,
    and the columns of the sheet when one was uploaded and read; [button]
    is what [st.button] returns when the script reaches it. *)
Definition main (uploaded_file : option (list string)) (author_name : string)
    (button : bool) (env : Env) : UI unit :=
  cabecera author_name ;;
  match uploaded_file with
  | Some columns =>
      try_except (procesar columns author_name button env) except_Exception
  | None => mret tt
  end ;;
  barra_lateral.

End main.

(** One run of the script on a world, from an empty page. *)
Definition run_main (parse : string → option datetime)
    (dias : Timestamp → Timestamp → Z) (uploaded_file : option (list string))
    (author_name : string) (button : bool) (env : Env) (w : World)
    : outcome unit * Pagina :=
  main parse dias uploaded_file author_name button env (mkPagina w []).

(** The elements a part of the script shows when it reads nothing of the
    world: the head of the page, the sidebar. *)
Definition mostrados (ui : UI unit) : list Elemento :=
  shown (ui (mkPagina (mkWorld ∅ (DatetimeFrame [])) [])).2.

(** Lines 176-188: what is shown of an accepted sheet before its dates are
    looked at. *)
Definition vista_y_totales (d : DataFrame) : list Elemento :=
  [ st_success "Archivo cargado correctamente";
    st_subheader "Vista previa de los datos";
    st_dataframe (head d);
    st_subheader "Estadísticas generales";
    st_metric "Total Inscritos" (Entero (pd.nunique (nombre <$> inscritos d)));
    st_metric "Total Cursos" (Entero (pd.nunique (curso <$> inscritos d))) ].

(** Lines 219-220: what the handler shows. *)
Definition error_mostrado (e : exn) : list Elemento :=
  [ st_error_str "Error al procesar el archivo: " e; st_exception e ].

(** Lines 209-216: what is shown once the report is there. *)
Definition descarga (pdf_bytes : File) : list Elemento :=
  [ st_download_button "Descargar Reporte PDF" pdf_bytes
      "reporte_inscritos.pdf" "application/pdf";
    st_success "¡Reporte generado con éxito!" ].

(** The kinds of elements of the head of the page and of the sidebar. *)
Definition de_cabecera (e : Elemento) : Prop :=
  match e with
  | st_title _ | st_markdown _ | st_file_uploader _ _ | st_text_input _ _ =>
      True
  | _ => False
  end.

Definition de_barra_lateral (e : Elemento) : Prop :=
  match e with
  | st_sidebar_header _ | st_sidebar_info _ | st_sidebar_markdown _ => True
  | _ => False
  end.

(** ** Whole days between two timestamps, to run [main] with *)

(** Days since 1970-01-01 of a date of the proleptic Gregorian calendar. *)
Definition days_from_civil (y m d : nat) : Z :=
  let y' := (Z.of_nat y - (if (m <=? 2)%nat then 1 else 0))%Z in
  let era := (y' / 400)%Z in
  let yoe := (y' - era * 400)%Z in
  let mp := (Z.of_nat m + (if (2 <? m)%nat then -3 else 9))%Z in
  let doy := ((153 * mp + 2) / 5 + Z.of_nat d - 1)%Z in
  let doe := (yoe * 365 + yoe / 4 - yoe / 100 + doy)%Z in
  (era * 146097 + doe - 719468)%Z.

Definition seconds_since_epoch (t : Timestamp) : Z :=
  (days_from_civil (year t) (month t) (day t) * 86400
   + Z.of_nat (hour t) * 3600 + Z.of_nat (minute t) * 60
   + Z.of_nat (second t))%Z.

(** [(a - b).days] for timestamps on whole seconds. *)
Definition dias_enteros (a b : Timestamp) : Z :=
  ((seconds_since_epoch a - seconds_since_epoch b) / 86400)%Z.

(** ** More example data *)

Module Caso.

(** The columns of a sheet with the four required ones and one more. *)
Definition columnas : list string :=
  [ "ID"; "Hora de inicio"; "Nombre y apellidos completos";
    "Correo de contacto"; "Curso de interés" ].

(** A sheet without e-mail and without course. *)
Definition columnas_incompletas : list string :=
  [ "ID"; "Hora de inicio"; "Nombre y apellidos completos" ].

(** An environment whose PDF backend fails. *)
Definition env_sin_pdf : Env :=
  mkEnv (mkTimestamp 2025 4 15 7 39 38)
    "/tmp/tmpk3v9x1.pdf" "/tmp/tmpq7w2m4.png" true false.

(** A file system with a file of the user. *)
Definition con_archivo (d : DataFrame) : World :=
  mkWorld {[ "/home/oscar/inscripciones.xlsx" := EmptyFile ]} d.

End Caso.

(** * Properties *)

(** ** The run of [generate_report], path by path *)

Lemma image_filenames_app s1 s2 :
  image_filenames (s1 ++ s2) = image_filenames s1 ++ image_filenames s2.
Proof. unfold image_filenames. apply omap_app. Qed.

Lemma image_filenames_secciones {T} (rows : list (Row T)) cs :
  image_filenames (cs ≫= seccion_curso rows) = [].
Proof.
  induction cs as [|c cs IH]; [done|].
  rewrite bind_cons, image_filenames_app, IH. reflexivity.
Qed.

Lemma image_filenames_elementos {T} (rows : list (Row T)) conteo n f1 f2 f3 a ch :
  image_filenames (elementos rows conteo n f1 f2 f3 a ch) = [ch].
Proof.
  unfold elementos. rewrite image_filenames_app, image_filenames_secciones.
  reflexivity.
Qed.

Lemma generate_report_unfold parse env author w :
  generate_report parse env author w =
  let files := tmp_created env (fs w) in
  match hora_rows parse (df w) with
  | None => (Raise ValueError_to_datetime, mkWorld files (df w))
  | Some rows =>
      let d' := DatetimeFrame rows in
      match pd.min (hora <$> rows), pd.max (hora <$> rows) with
      | TS tmin, TS tmax =>
          let conteo := conteo_cursos rows in
          let fig := bar_chart conteo in
          let story :=
            elementos rows conteo (pd.nunique (nombre <$> inscritos (df w)))
              (strftime_dmY_HM tmin) (strftime_dmY_HM tmax)
              (strftime_dmY (now env)) author (tmp_chart env) in
          let drawn := <[tmp_chart env := PngFile fig]> files in
          if savefig_ok env then
            if build_ok env then
              (Return (tmp_pdf env),
               mkWorld (delete (tmp_chart env)
                          (<[tmp_pdf env := PdfFile story [fig]]> drawn)) d')
            else (Raise Error_build, mkWorld drawn d')
          else (Raise Error_savefig, mkWorld files d')
      | _, _ => (Raise ValueError_NaT_strftime, mkWorld files d')
      end
  end.
Proof.
  destruct w as [files0 d0].
  unfold generate_report, convert_hora_de_inicio, NamedTemporaryFile, savefig,
    build, unlink, strftime, get_df, set_df, modify_fs, raise, hora_rows,
    tmp_created.
  cbv [mbind M_bind mret M_ret]. cbn [fs df].
  destruct d0 as [rows|rows]; cbn [fs df].
  - destruct (pd.min (hora <$> rows)) as [|tmin]; [done|].
    destruct (pd.max (hora <$> rows)) as [|tmax]; [done|].
    destruct (savefig_ok env); [|done]. cbn [fs df].
    destruct (build_ok env); [|done].
    rewrite image_filenames_elementos. cbn [mapM].
    unfold read_image. rewrite lookup_insert_eq. reflexivity.
  - destruct (to_datetime parse rows) as [rows'|]; [|done]. cbn [fs df].
    destruct (pd.min (hora <$> rows')) as [|tmin]; [done|].
    destruct (pd.max (hora <$> rows')) as [|tmax]; [done|].
    destruct (savefig_ok env); [|done]. cbn [fs df].
    destruct (build_ok env); [|done].
    rewrite image_filenames_elementos. cbn [mapM].
    unfold read_image. rewrite lookup_insert_eq. reflexivity.
Qed.

(** ** pandas: removing duplicates and counting distinct values *)

Section dedup_facts.
Context {R K : Type} `{Countable K}.
Variable subset : R → K.

Lemma elem_of_drop_duplicates_from seen rows k :
  k ∈ subset <$> pd.drop_duplicates_from subset seen rows
  ↔ k ∈ subset <$> rows ∧ k ∉ seen.
Proof.
  revert seen. induction rows as [|r rows IH]; intros seen.
  - simpl. rewrite elem_of_nil. tauto.
  - cbn [pd.drop_duplicates_from]. rewrite (fmap_cons subset r rows).
    case_decide as Hin; [|rewrite fmap_cons]; rewrite ?elem_of_cons, IH;
      rewrite ?elem_of_cons.
    + split; [tauto|]. intros [[->|?] ?]; done.
    + destruct (decide (k = subset r)) as [->|]; [|tauto].
      split; [intros _; split; [by left|done] | intros _; by left].
Qed.

Lemma NoDup_drop_duplicates_from seen rows :
  NoDup (subset <$> pd.drop_duplicates_from subset seen rows).
Proof.
  revert seen. induction rows as [|r rows IH]; intros seen.
  - constructor.
  - cbn [pd.drop_duplicates_from].
    case_decide; [apply IH|]. rewrite fmap_cons. constructor; [|apply IH].
    rewrite elem_of_drop_duplicates_from, elem_of_cons. tauto.
Qed.

Lemma drop_duplicates_from_sublist seen rows :
  pd.drop_duplicates_from subset seen rows `sublist_of` rows.
Proof.
  revert seen. induction rows as [|r rows IH]; intros seen; simpl.
  - constructor.
  - case_decide; [apply sublist_cons|apply sublist_skip]; apply IH.
Qed.

(** No two rows left have the same key. *)
Lemma NoDup_drop_duplicates rows :
  NoDup (subset <$> pd.drop_duplicates subset rows).
Proof. apply NoDup_drop_duplicates_from. Qed.

(** The keys left are the keys there were. *)
Lemma elem_of_drop_duplicates rows k :
  k ∈ subset <$> pd.drop_duplicates subset rows ↔ k ∈ subset <$> rows.
Proof.
  unfold pd.drop_duplicates. rewrite elem_of_drop_duplicates_from.
  rewrite elem_of_nil. tauto.
Qed.

(** The rows left are rows there were. *)
Lemma drop_duplicates_subseteq rows r :
  r ∈ pd.drop_duplicates subset rows → r ∈ rows.
Proof. apply sublist_subseteq, drop_duplicates_from_sublist. Qed.

(** As many rows are left as there are distinct keys. *)
Lemma length_drop_duplicates rows :
  length (pd.drop_duplicates subset rows)
  = size (list_to_set (subset <$> rows) : gset K).
Proof.
  rewrite <- (length_fmap subset).
  rewrite <- (size_list_to_set (C:=gset K)) by apply NoDup_drop_duplicates.
  f_equal. apply set_eq. intros k.
  rewrite !elem_of_list_to_set. apply elem_of_drop_duplicates.
Qed.
End dedup_facts.

Lemma nunique_size `{Countable A} (s : list A) :
  pd.nunique s = size (list_to_set s : gset A).
Proof.
  unfold pd.nunique, pd.unique. rewrite length_drop_duplicates.
  by rewrite list_fmap_id.
Qed.

Lemma elem_of_unique `{Countable A} (s : list A) x : x ∈ pd.unique s ↔ x ∈ s.
Proof.
  unfold pd.unique.
  rewrite <- (list_fmap_id (pd.drop_duplicates id s)).
  by rewrite (elem_of_drop_duplicates id), list_fmap_id.
Qed.

Lemma NoDup_unique `{Countable A} (s : list A) : NoDup (pd.unique s).
Proof.
  unfold pd.unique. rewrite <- (list_fmap_id (pd.drop_duplicates id s)).
  apply (NoDup_drop_duplicates id).
Qed.

(** [nunique] against any other enumeration of the distinct values. *)
Lemma nunique_enumeration `{Countable A} (s l : list A) :
  NoDup l → (∀ x, x ∈ l ↔ x ∈ s) → pd.nunique s = length l.
Proof.
  intros Hl Hs. unfold pd.nunique. apply Permutation_length.
  apply NoDup_Permutation; [apply NoDup_unique|done|].
  intros x. by rewrite elem_of_unique, Hs.
Qed.

(** ** The order on text *)

Global Instance str_le_total : Total pd.str_le.
Proof.
  intros a b. unfold pd.str_le.
  destruct (String_as_OT.compare_spec a b) as [?|?|Hlt]; [left|left|right];
    try done.
  red in Hlt. rewrite Hlt. done.
Qed.

Global Instance str_le_trans : Transitive pd.str_le.
Proof.
  intros a b c. unfold pd.str_le.
  destruct (String_as_OT.compare_spec a b) as [->|Hab|?]; [done| |done].
  destruct (String_as_OT.compare_spec b c) as [->|Hbc|?]; [| |done]; intros _ _.
  - red in Hab. by rewrite Hab.
  - pose proof (transitivity Hab Hbc) as Hac. red in Hac. by rewrite Hac.
Qed.

Global Instance on_col_total {R K} (col : R → K) (le : relation K) :
  Total le → Total (λ a b, le (col a) (col b)).
Proof. intros ? a b. apply total; done. Qed.

Global Instance on_col_trans {R K} (col : R → K) (le : relation K) :
  Transitive le → Transitive (λ a b, le (col a) (col b)).
Proof. intros ? a b c. apply transitivity. Qed.

Global Instance on_col_desc_total {R K} (col : R → K) (le : relation K) :
  Total le → Total (λ a b, le (col b) (col a)).
Proof. intros ? a b. apply total; done. Qed.

Global Instance on_col_desc_trans {R K} (col : R → K) (le : relation K) :
  Transitive le → Transitive (λ a b, le (col b) (col a)).
Proof. intros ? a b c ? ?. by transitivity (col b). Qed.

(** ** pandas: sorting *)

Section stable_sort_facts.
Context {A : Type} (R : relation A) `{∀ a b, Decision (R a b)}.

Lemma insert_sorted_Permutation x l : pd.insert_sorted R x l ≡ₚ x :: l.
Proof.
  induction l as [|y l IH]; [done|]. cbn [pd.insert_sorted].
  case_decide; [done|]. rewrite IH. apply Permutation_swap.
Qed.

(** Sorting moves rows, it neither drops nor repeats one. *)
Lemma stable_sort_Permutation l : pd.stable_sort R l ≡ₚ l.
Proof.
  induction l as [|x l IH]; [done|]. cbn [pd.stable_sort foldr].
  rewrite insert_sorted_Permutation. by apply Permutation_skip.
Qed.

Lemma StronglySorted_insert_sorted `{!Transitive R, !Total R} x l :
  StronglySorted R l → StronglySorted R (pd.insert_sorted R x l).
Proof.
  induction 1 as [|y l Hl IH Hy]; cbn [pd.insert_sorted].
  - repeat constructor.
  - case_decide as Hxy.
    + constructor; [by constructor|].
      constructor; [done|]. eapply Forall_impl; [exact Hy|].
      intros z Hz. by transitivity y.
    + constructor; [done|]. rewrite insert_sorted_Permutation.
      constructor; [|done]. by destruct (total R x y).
Qed.

(** Every row of the result is in order with every later one. *)
Lemma StronglySorted_stable_sort `{!Transitive R, !Total R} l :
  StronglySorted R (pd.stable_sort R l).
Proof.
  induction l as [|x l IH]; [constructor|]. cbn [pd.stable_sort foldr].
  by apply StronglySorted_insert_sorted.
Qed.
End stable_sort_facts.

(** ** The per-course count of the source *)

Lemma where_eq_of_course {T} (rows : list (Row T)) c :
  pd.where_eq curso c rows = Spec.of_course c rows.
Proof. reflexivity. Qed.

Lemma conteo_cursos_Permutation {T} (rows : list (Row T)) :
  conteo_cursos rows ≡ₚ pd.groupby_nunique curso nombre rows.
Proof. apply stable_sort_Permutation. Qed.

(** [conteo_cursos] has one line per course of the data, and the count of
    a course is the number of its distinct names. *)
Lemma elem_of_conteo_cursos {T} (rows : list (Row T)) c n :
  (c, n) ∈ conteo_cursos rows
  ↔ c ∈ curso <$> rows ∧ n = Spec.courseNames rows c.
Proof.
  rewrite conteo_cursos_Permutation. unfold pd.groupby_nunique.
  rewrite list_elem_of_fmap. setoid_rewrite stable_sort_Permutation.
  setoid_rewrite elem_of_unique. setoid_rewrite nunique_size.
  unfold Spec.courseNames, Spec.names. setoid_rewrite where_eq_of_course.
  split.
  - intros (k & [= -> ->] & Hk). done.
  - intros [Hc ->]. exists c. done.
Qed.

Lemma conteo_cursos_index {T} (rows : list (Row T)) c :
  c ∈ (conteo_cursos rows).*1 ↔ c ∈ curso <$> rows.
Proof.
  rewrite list_elem_of_fmap. split.
  - intros ([c' n] & -> & Hin). by apply elem_of_conteo_cursos in Hin as [? _].
  - intros Hc. exists (c, Spec.courseNames rows c). split; [done|].
    by apply elem_of_conteo_cursos.
Qed.

Lemma NoDup_conteo_cursos_index {T} (rows : list (Row T)) :
  NoDup (conteo_cursos rows).*1.
Proof.
  rewrite conteo_cursos_Permutation. unfold pd.groupby_nunique.
  rewrite <- list_fmap_compose.
  rewrite (list_fmap_ext _ id _ (λ _ _ _, eq_refl)), list_fmap_id.
  rewrite stable_sort_Permutation. apply NoDup_unique.
Qed.

(** The lines of [conteo_cursos] are in non-increasing order of the count. *)
Lemma conteo_cursos_Sorted {T} (rows : list (Row T)) :
  StronglySorted (λ a b, b.2 ≤ a.2) (conteo_cursos rows).
Proof. apply (StronglySorted_stable_sort (λ a b : string * nat, b.2 ≤ a.2)). Qed.

(** ** The text columns are what the aggregates read *)

Lemma nombre_forget {T} (rows : list (Row T)) :
  nombre <$> (forget <$> rows) = nombre <$> rows.
Proof. by rewrite <- list_fmap_compose. Qed.

Lemma curso_forget {T} (rows : list (Row T)) :
  curso <$> (forget <$> rows) = curso <$> rows.
Proof. by rewrite <- list_fmap_compose. Qed.

Lemma of_course_forget {T} c (rows : list (Row T)) :
  Spec.of_course c (forget <$> rows) = forget <$> Spec.of_course c rows.
Proof.
  unfold Spec.of_course. induction rows as [|r rows IH]; [done|].
  rewrite fmap_cons, !filter_cons, IH. cbn [forget set_hora curso].
  by case_decide.
Qed.

Lemma names_forget {T} c (rows : list (Row T)) :
  Spec.names (Spec.of_course c (forget <$> rows))
  = Spec.names (Spec.of_course c rows).
Proof. unfold Spec.names. by rewrite of_course_forget, nombre_forget. Qed.

Lemma pairs_forget {T} c (rows : list (Row T)) :
  Spec.pairs (Spec.of_course c (forget <$> rows))
  = Spec.pairs (Spec.of_course c rows).
Proof.
  unfold Spec.pairs. by rewrite of_course_forget, <- list_fmap_compose.
Qed.

Lemma to_datetime_forget parse rows rows' :
  to_datetime parse rows = Some rows' → forget <$> rows' = forget <$> rows.
Proof.
  intros Hm. apply mapM_Some_1 in Hm.
  induction Hm as [|r r' rows rows' Hr _ IH]; [done|].
  rewrite !fmap_cons, IH. f_equal.
  destruct (to_datetime_cell parse (hora r)); simplify_eq/=. done.
Qed.

Lemma hora_rows_inscritos parse d rows :
  hora_rows parse d = Some rows → forget <$> rows = inscritos d.
Proof.
  destruct d as [rows0|rows0]; simpl.
  - by intros [= ->].
  - apply to_datetime_forget.
Qed.

(** A value that is no date makes the conversion of the column fail. *)
Lemma has_unparsable_hora_rows parse d :
  Spec.has_unparsable parse d = true → hora_rows parse d = None.
Proof.
  destruct d as [rows|rows]; simpl; [done|].
  rewrite existsb_exists. intros (r & Hin & Hr). apply mapM_None_2.
  apply Exists_exists. exists r. split; [by apply list_elem_of_In|].
  destruct (hora r) as [s|dt]; simpl in Hr; [|done].
  apply bool_decide_eq_true in Hr. simpl. by rewrite Hr.
Qed.

(** Without a record the conversion has nothing to do. *)
Lemma hora_rows_is_Some_nil parse d :
  inscritos d = [] → hora_rows parse d = Some [].
Proof.
  destruct d as [[|r rows]|[|r rows]]; simpl; done.
Qed.

(** ** Successful runs *)

Lemma elementos_encabezado {T} (rows : list (Row T)) conteo n f1 f2 f3 a ch :
  elementos rows conteo n f1 f2 f3 a ch
  = encabezado n f1 f2 f3 a ch ++ (conteo.*1 ≫= seccion_curso rows).
Proof. reflexivity. Qed.

(** What a run that returns has done: the caller's DataFrame now holds the
    converted rows, and the returned path holds the PDF with the story and
    the chart built from them. *)
Lemma generate_report_Return parse env author w pdf w' :
  generate_report parse env author w = (Return pdf, w') →
  tmp_pdf env ≠ tmp_chart env →
  ∃ rows tmin tmax,
    hora_rows parse (df w) = Some rows
    ∧ pd.min (hora <$> rows) = TS tmin
    ∧ pd.max (hora <$> rows) = TS tmax
    ∧ df w' = DatetimeFrame rows
    ∧ pdf = tmp_pdf env
    ∧ fs w' !! pdf
      = Some (PdfFile
                (encabezado (Spec.totalUniqueEnrollees (df w))
                   (strftime_dmY_HM tmin) (strftime_dmY_HM tmax)
                   (strftime_dmY (now env)) author (tmp_chart env)
                 ++ ((conteo_cursos rows).*1 ≫= seccion_curso rows))
                [bar_chart (conteo_cursos rows)]).
Proof.
  rewrite generate_report_unfold. cbv zeta. intros Hrun Hne.
  destruct (hora_rows parse (df w)) as [rows|]; [|done].
  destruct (pd.min (hora <$> rows)) as [|tmin] eqn:Hmin; [done|].
  destruct (pd.max (hora <$> rows)) as [|tmax] eqn:Hmax; [done|].
  destruct (savefig_ok env); [|done]. destruct (build_ok env); [|done].
  injection Hrun as <- <-. exists rows, tmin, tmax. cbn [fs df].
  do 5 (split; [done|]).
  rewrite lookup_delete_ne, lookup_insert_eq by done.
  by rewrite elementos_encabezado, nunique_size.
Qed.

(** A run returns when every value of the column is a date, at least one
    of them is not missing, and the two backends do their work. *)
Lemma generate_report_returns parse env author w rows :
  hora_rows parse (df w) = Some rows →
  pd.dropna (hora <$> rows) ≠ [] →
  savefig_ok env = true → build_ok env = true →
  ∃ w', generate_report parse env author w = (Return (tmp_pdf env), w').
Proof.
  intros Hrows Hsome Hsave Hbuild. rewrite generate_report_unfold. cbv zeta.
  rewrite Hrows, Hsave, Hbuild. unfold pd.min, pd.max, pd.reduce.
  destruct (pd.dropna (hora <$> rows)); [done|]. eauto.
Qed.

(** The scenario of the specification: three records, two people, A twice
    in "Course X" with the same e-mail, B once in "Course Y". *)
Example escenario_counts :
  let rows := inscritos Ejemplo.escenario in
  Spec.totalUniqueEnrollees Ejemplo.escenario = 2
  ∧ conteo_cursos rows = [("Course X", 1); ("Course Y", 1)]
  ∧ roster rows "Course X" = [("A", "a@mail.org")]
  ∧ roster rows "Course Y" = [("B", "b@mail.org")].
Proof. by vm_compute. Qed.

(** ** Validation failures *)

(** C2. A dataset with zero records makes [generate_report] raise a
    validation error (the ValueError of [NaT.strftime], since the minimum of
    an empty column is [NaT]); nothing is returned and no document is
    written: the file system only gains the two empty temporary files. *)
Theorem empty_dataset_raises parse env author w :
  inscritos (df w) = [] →
  ∃ e w',
    generate_report parse env author w = (Raise e, w')
    ∧ is_ValidationError e = true
    ∧ fs w' = tmp_created env (fs w).
Proof.
  intros Hd. exists ValueError_NaT_strftime. eexists.
  rewrite generate_report_unfold. cbv zeta.
  rewrite (hora_rows_is_Some_nil parse _ Hd). cbn. done.
Qed.

Lemma empty_dataset_raises_witness :
  inscritos (df (Ejemplo.mundo Ejemplo.vacio)) = []
  ∧ ∃ e w',
      generate_report parse_iso Ejemplo.env Ejemplo.autor
        (Ejemplo.mundo Ejemplo.vacio) = (Raise e, w')
      ∧ is_ValidationError e = true
      ∧ fs w' = tmp_created Ejemplo.env (fs (Ejemplo.mundo Ejemplo.vacio)).
Proof.
  split; [reflexivity|].
  apply (empty_dataset_raises parse_iso Ejemplo.env Ejemplo.autor
           (Ejemplo.mundo Ejemplo.vacio)).
  reflexivity.
Defined.

(** C3. If some record's "Hora de inicio" cannot be parsed as a date/time,
    [generate_report] raises a validation error (the ValueError of
    [pd.to_datetime]); the dataset keeps all its rows as they were, nothing
    is returned and no document is written. *)
Theorem unparsable_timestamp_raises parse env author w :
  Spec.has_unparsable parse (df w) = true →
  ∃ e w',
    generate_report parse env author w = (Raise e, w')
    ∧ is_ValidationError e = true
    ∧ df w' = df w
    ∧ fs w' = tmp_created env (fs w).
Proof.
  intros Hbad. exists ValueError_to_datetime. eexists.
  rewrite generate_report_unfold. cbv zeta.
  rewrite (has_unparsable_hora_rows _ _ Hbad). done.
Qed.

Lemma unparsable_timestamp_raises_witness :
  Spec.has_unparsable parse_iso (df (Ejemplo.mundo Ejemplo.fecha_mala)) = true
  ∧ ∃ e w',
      generate_report parse_iso Ejemplo.env Ejemplo.autor
        (Ejemplo.mundo Ejemplo.fecha_mala) = (Raise e, w')
      ∧ is_ValidationError e = true
      ∧ df w' = df (Ejemplo.mundo Ejemplo.fecha_mala)
      ∧ fs w' = tmp_created Ejemplo.env (fs (Ejemplo.mundo Ejemplo.fecha_mala)).
Proof.
  split; [vm_compute; reflexivity|].
  apply (unparsable_timestamp_raises parse_iso Ejemplo.env Ejemplo.autor
           (Ejemplo.mundo Ejemplo.fecha_mala)).
  vm_compute. reflexivity.
Defined.

(** ** The total of the general-information block *)

(** C5. In the document of every run that returns, the line "Total de
    personas inscritas" of the general-information block shows the number
    of distinct fullName values of the dataset (names only, e-mails are not
    looked at). *)
Theorem total_is_distinct_names parse env author w pdf w' :
  generate_report parse env author w = (Return pdf, w') →
  tmp_pdf env ≠ tmp_chart env →
  ∃ story figs,
    fs w' !! pdf = Some (PdfFile story figs)
    ∧ story !! 5
      = Some (Paragraph
                ("Total de personas inscritas: <b>"
                 +:+ str_nat (Spec.totalUniqueEnrollees (df w)) +:+ "</b>")
                Normal).
Proof.
  intros Hrun Hne.
  destruct (generate_report_Return _ _ _ _ _ _ Hrun Hne)
    as (rows & tmin & tmax & _ & _ & _ & _ & _ & Hpdf).
  eexists _, _. split; [exact Hpdf|]. reflexivity.
Qed.

Lemma total_is_distinct_names_witness :
  ∃ story figs,
    fs (generate_report parse_iso Ejemplo.env Ejemplo.autor
          (Ejemplo.mundo Ejemplo.escenario)).2 !! tmp_pdf Ejemplo.env
    = Some (PdfFile story figs)
    ∧ story !! 5
      = Some (Paragraph "Total de personas inscritas: <b>2</b>" Normal).
Proof.
  apply (total_is_distinct_names parse_iso Ejemplo.env Ejemplo.autor
           (Ejemplo.mundo Ejemplo.escenario) (tmp_pdf Ejemplo.env)).
  - vm_compute. reflexivity.
  - vm_compute. discriminate.
Defined.

(** ** Order of the bars and of the course sections *)

Lemma StronglySorted_lookup_lt {A} (R : relation A) l i j a b :
  StronglySorted R l → i < j → l !! i = Some a → l !! j = Some b → R a b.
Proof.
  intros Hl. revert i j. induction Hl as [|x l Hl IH Hx]; intros i j Hij Hi Hj.
  - done.
  - destruct j as [|j]; [lia|]. destruct i as [|i]; simpl in *.
    + simplify_eq. rewrite Forall_forall in Hx. apply Hx.
      by eapply list_elem_of_lookup_2.
    + apply (IH i j); [lia|done..].
Qed.

Lemma bind_concat {A B} (f : A → list B) l : l ≫= f = concat (f <$> l).
Proof. induction l as [|x l IH]; [done|]. by rewrite bind_cons, IH. Qed.

Lemma bars_bar_chart conteo :
  bars (bar_chart conteo) = (λ c, mkBar c.1 c.2) <$> conteo.
Proof. reflexivity. Qed.

Lemma bar_x_bar_chart conteo : bar_x <$> bars (bar_chart conteo) = conteo.*1.
Proof. rewrite bars_bar_chart, <- list_fmap_compose. done. Qed.

(** The height of a bar is the number of distinct names of its course. *)
Lemma elem_of_bars {T} (rows : list (Row T)) b :
  b ∈ bars (bar_chart (conteo_cursos rows))
  ↔ bar_x b ∈ curso <$> rows
    ∧ bar_height b = Spec.courseNames rows (bar_x b).
Proof.
  rewrite bars_bar_chart, list_elem_of_fmap. split.
  - intros ([c n] & -> & Hin). by apply elem_of_conteo_cursos in Hin.
  - intros [Hc Hn]. exists (bar_x b, bar_height b). split; [by destruct b|].
    by apply elem_of_conteo_cursos.
Qed.

Lemma courseNames_hora_rows parse d rows c :
  hora_rows parse d = Some rows →
  Spec.courseNames rows c = Spec.courseNames (inscritos d) c.
Proof.
  intros Hrows. apply hora_rows_inscritos in Hrows as <-.
  unfold Spec.courseNames. by rewrite names_forget.
Qed.

Lemma courseCount_hora_rows parse d rows c :
  hora_rows parse d = Some rows →
  Spec.courseCount rows c = Spec.courseCount (inscritos d) c.
Proof.
  intros Hrows. apply hora_rows_inscritos in Hrows as <-.
  unfold Spec.courseCount. by rewrite pairs_forget.
Qed.

Lemma curso_hora_rows parse d rows :
  hora_rows parse d = Some rows → curso <$> rows = curso <$> inscritos d.
Proof.
  intros Hrows. apply hora_rows_inscritos in Hrows as <-.
  by rewrite curso_forget.
Qed.

(** ** The roster of a course *)

Section roster.
Context {T : Type}.
Implicit Types (rows : list (Row T)) (c : string).

Lemma roster_Permutation rows c :
  roster rows c
  ≡ₚ (λ r, (nombre r, correo r))
       <$> pd.drop_duplicates (λ r, (nombre r, correo r))
             (pd.where_eq curso c rows).
Proof.
  unfold roster, curso_df, pd.sort_values.
  by rewrite stable_sort_Permutation.
Qed.

Lemma NoDup_roster rows c : NoDup (roster rows c).
Proof. rewrite roster_Permutation. apply NoDup_drop_duplicates. Qed.

Lemma elem_of_roster rows c pr :
  pr ∈ roster rows c ↔ pr ∈ Spec.pairs (Spec.of_course c rows).
Proof.
  rewrite roster_Permutation, elem_of_drop_duplicates.
  unfold Spec.pairs. by rewrite elem_of_list_to_set.
Qed.

Lemma length_roster rows c : length (roster rows c) = Spec.courseCount rows c.
Proof.
  rewrite roster_Permutation, length_fmap, length_drop_duplicates. done.
Qed.

Lemma roster_Sorted rows c :
  StronglySorted (λ a b, pd.str_le a.1 b.1) (roster rows c).
Proof.
  unfold roster, curso_df, pd.sort_values.
  eapply StronglySorted_fmap;
    [|apply (StronglySorted_stable_sort
               (λ a b : Row T, pd.str_le (nombre a) (nombre b)))].
  done.
Qed.

Lemma seccion_curso_roster rows c :
  seccion_curso rows c
  = [ Paragraph ("Curso: " +:+ c +:+ " (" +:+ str_nat (length (roster rows c))
                 +:+ " inscritos)") Normal;
      Table (["Nombre y Apellidos"; "Correo de contacto"]
               :: ((λ pr, [pr.1; pr.2]) <$> roster rows c))
        [7 * inch / 2; 7 * inch / 2];
      Spacer 1 (inch / 4) ].
Proof.
  unfold seccion_curso, titulo_curso, datos_tabla, roster.
  cbn [length Nat.sub]. rewrite Nat.sub_0_r, !length_fmap, <- list_fmap_compose.
  reflexivity.
Qed.
End roster.

(** C7. In the document of every run that returns, every course of the
    dataset has a section made of the heading "Curso: <name> (<N>
    inscritos)" followed by its table; the table lists each distinct
    (fullName, contactEmail) pair of the course's records exactly once,
    sorted by fullName ascending, and N is the number of those pairs, that
    is, the number of data rows of the table. *)
Theorem course_section_lists_distinct_pairs parse env author w pdf w' :
  generate_report parse env author w = (Return pdf, w') →
  tmp_pdf env ≠ tmp_chart env →
  ∃ story figs,
    fs w' !! pdf = Some (PdfFile story figs)
    ∧ ∀ c, c ∈ curso <$> inscritos (df w) →
        ∃ (filas : list (string * string)) antes despues,
          story
          = antes
            ++ [ Paragraph ("Curso: " +:+ c +:+ " (" +:+ str_nat (length filas)
                            +:+ " inscritos)") Normal;
                 Table (["Nombre y Apellidos"; "Correo de contacto"]
                          :: ((λ pr, [pr.1; pr.2]) <$> filas))
                   [7 * inch / 2; 7 * inch / 2] ]
            ++ despues
          ∧ NoDup filas
          ∧ (∀ pr, pr ∈ filas
                   ↔ pr ∈ Spec.pairs (Spec.of_course c (inscritos (df w))))
          ∧ StronglySorted (λ a b, pd.str_le a.1 b.1) filas
          ∧ length filas = Spec.courseCount (inscritos (df w)) c.
Proof.
  intros Hrun Hne.
  destruct (generate_report_Return _ _ _ _ _ _ Hrun Hne)
    as (rows & tmin & tmax & Hrows & _ & _ & _ & _ & Hpdf).
  match type of Hpdf with
  | _ = Some (PdfFile (?e ++ _) _) => set (enc := e) in Hpdf
  end.
  eexists _, _. split; [exact Hpdf|]. intros c Hc.
  rewrite <- (curso_hora_rows _ _ _ Hrows) in Hc.
  apply conteo_cursos_index, list_elem_of_split in Hc as (l1 & l2 & Hsplit).
  exists (roster rows c), (enc ++ (l1 ≫= seccion_curso rows)),
    (Spacer 1 (inch / 4) :: (l2 ≫= seccion_curso rows)).
  split; [|split; [|split; [|split]]].
  - rewrite Hsplit, bind_app, bind_cons, seccion_curso_roster.
    rewrite <- (app_assoc enc). reflexivity.
  - apply NoDup_roster.
  - intros pr. rewrite elem_of_roster.
    pose proof (hora_rows_inscritos _ _ _ Hrows) as <-.
    by rewrite pairs_forget.
  - apply roster_Sorted.
  - rewrite length_roster. by eapply courseCount_hora_rows.
Qed.

Lemma course_section_lists_distinct_pairs_witness :
  ∃ story figs,
    fs (generate_report parse_iso Ejemplo.env Ejemplo.autor
          (Ejemplo.mundo Ejemplo.escenario)).2 !! tmp_pdf Ejemplo.env
    = Some (PdfFile story figs)
    ∧ ∀ c, c ∈ curso <$> inscritos (df (Ejemplo.mundo Ejemplo.escenario)) →
        ∃ (filas : list (string * string)) antes despues,
          story
          = antes
            ++ [ Paragraph ("Curso: " +:+ c +:+ " (" +:+ str_nat (length filas)
                            +:+ " inscritos)") Normal;
                 Table (["Nombre y Apellidos"; "Correo de contacto"]
                          :: ((λ pr, [pr.1; pr.2]) <$> filas))
                   [7 * inch / 2; 7 * inch / 2] ]
            ++ despues
          ∧ NoDup filas
          ∧ (∀ pr, pr ∈ filas
                   ↔ pr ∈ Spec.pairs
                            (Spec.of_course c
                               (inscritos (df (Ejemplo.mundo Ejemplo.escenario)))))
          ∧ StronglySorted (λ a b, pd.str_le a.1 b.1) filas
          ∧ length filas
            = Spec.courseCount
                (inscritos (df (Ejemplo.mundo Ejemplo.escenario))) c.
Proof.
  apply (course_section_lists_distinct_pairs parse_iso Ejemplo.env
           Ejemplo.autor (Ejemplo.mundo Ejemplo.escenario)
           (tmp_pdf Ejemplo.env)).
  - vm_compute. reflexivity.
  - vm_compute. discriminate.
Defined.

(** ** The bars and the sections, in order *)

(** X18. In the output of every run that returns, the bars of the chart
    are the courses of the dataset in non-increasing order of their height
    (the number of distinct names of the course, the column 'Cantidad de
    inscritos'), and the course sections come one per bar, in the order of
    the bars, each under the heading with the number of distinct
    (name, e-mail) pairs of its course. *)
Theorem sections_and_bars_by_decreasing_count parse env author w pdf w' :
  generate_report parse env author w = (Return pdf, w') →
  tmp_pdf env ≠ tmp_chart env →
  ∃ story fig secciones,
    fs w' !! pdf = Some (PdfFile story [fig])
    ∧ drop 13 story = concat secciones
    ∧ Forall2
        (λ b sec, ∃ data,
           sec = [ Paragraph
                     ("Curso: " +:+ bar_x b +:+ " ("
                      +:+ str_nat (Spec.courseCount (inscritos (df w)) (bar_x b))
                      +:+ " inscritos)") Normal;
                   Table data [7 * inch / 2; 7 * inch / 2];
                   Spacer 1 (inch / 4) ])
        (bars fig) secciones
    ∧ (∀ c, c ∈ bar_x <$> bars fig ↔ c ∈ curso <$> inscritos (df w))
    ∧ Forall (λ b, bar_height b
                   = Spec.courseNames (inscritos (df w)) (bar_x b)) (bars fig)
    ∧ ∀ i b1 b2,
        bars fig !! i = Some b1 → bars fig !! S i = Some b2 →
        bar_height b2 ≤ bar_height b1.
Proof.
  intros Hrun Hne.
  destruct (generate_report_Return _ _ _ _ _ _ Hrun Hne)
    as (rows & tmin & tmax & Hrows & _ & _ & _ & _ & Hpdf).
  eexists _, (bar_chart (conteo_cursos rows)),
    (seccion_curso rows <$> (conteo_cursos rows).*1).
  split; [exact Hpdf|]. split; [|split; [|split; [|split]]].
  - rewrite <- bind_concat. reflexivity.
  - rewrite <- bar_x_bar_chart. apply Forall2_fmap_r, Forall2_fmap_r.
    apply Forall_Forall2_diag, Forall_forall. intros b _.
    unfold compose. rewrite seccion_curso_roster, length_roster.
    rewrite (courseCount_hora_rows _ _ _ (bar_x b) Hrows).
    eexists. reflexivity.
  - intros c. rewrite bar_x_bar_chart, <- (curso_hora_rows _ _ _ Hrows).
    apply conteo_cursos_index.
  - apply Forall_forall. intros b Hb. apply elem_of_bars in Hb as [_ ->].
    by eapply courseNames_hora_rows.
  - intros i b1 b2. rewrite bars_bar_chart, !list_lookup_fmap.
    intros Hi Hj.
    destruct (conteo_cursos rows !! i) as [c1|] eqn:H1; simplify_eq/=.
    destruct (conteo_cursos rows !! S i) as [c2|] eqn:H2; simplify_eq/=.
    apply (StronglySorted_lookup_lt _ _ i (S i) c1 c2
             (conteo_cursos_Sorted rows)); [lia|done..].
Qed.

Lemma sections_and_bars_by_decreasing_count_witness :
  ∃ story fig secciones,
    fs (generate_report parse_iso Ejemplo.env Ejemplo.autor
          (Ejemplo.mundo Ejemplo.tres_correos)).2 !! tmp_pdf Ejemplo.env
    = Some (PdfFile story [fig])
    ∧ drop 13 story = concat secciones
    ∧ Forall2
        (λ b sec, ∃ data,
           sec = [ Paragraph
                     ("Curso: " +:+ bar_x b +:+ " ("
                      +:+ str_nat
                            (Spec.courseCount
                               (inscritos
                                  (df (Ejemplo.mundo Ejemplo.tres_correos)))
                               (bar_x b))
                      +:+ " inscritos)") Normal;
                   Table data [7 * inch / 2; 7 * inch / 2];
                   Spacer 1 (inch / 4) ])
        (bars fig) secciones
    ∧ (∀ c, c ∈ bar_x <$> bars fig
            ↔ c ∈ curso <$> inscritos (df (Ejemplo.mundo Ejemplo.tres_correos)))
    ∧ Forall (λ b, bar_height b
                   = Spec.courseNames
                       (inscritos (df (Ejemplo.mundo Ejemplo.tres_correos)))
                       (bar_x b)) (bars fig)
    ∧ ∀ i b1 b2,
        bars fig !! i = Some b1 → bars fig !! S i = Some b2 →
        bar_height b2 ≤ bar_height b1.
Proof.
  apply (sections_and_bars_by_decreasing_count parse_iso Ejemplo.env
           Ejemplo.autor (Ejemplo.mundo Ejemplo.tres_correos)
           (tmp_pdf Ejemplo.env)).
  - vm_compute. reflexivity.
  - vm_compute. discriminate.
Defined.

(** ** Two figures for one course *)

(** Two records with one name and two e-mails: fewer names than pairs. *)
Lemma names_lt_pairs {T} (rows : list (Row T)) r1 r2 :
  r1 ∈ rows → r2 ∈ rows → nombre r1 = nombre r2 → correo r1 ≠ correo r2 →
  size (Spec.names rows) < size (Spec.pairs rows).
Proof.
  intros H1 H2 Hn Hc.
  set (par := λ r : Row T, (nombre r, correo r)).
  assert (Hpar : ∀ r, r ∈ rows → par r ∈ Spec.pairs rows).
  { intros r Hr. apply elem_of_list_to_set. by apply list_elem_of_fmap_2. }
  set (P' := Spec.pairs rows ∖ {[par r2]}).
  assert (size P' = size (Spec.pairs rows) - 1) as HP'.
  { unfold P'. rewrite size_difference, size_singleton; [done|].
    apply singleton_subseteq_l. by apply Hpar. }
  assert (1 ≤ size (Spec.pairs rows)) as Hpos.
  { rewrite <- (size_singleton (C:=gset (string * string)) (par r2)).
    apply subseteq_size, singleton_subseteq_l. by apply Hpar. }
  enough (size (Spec.names rows) ≤ size P') by lia.
  unfold size at 1 2, set_size. simpl.
  rewrite <- (length_fmap fst (elements P')).
  apply submseteq_length, NoDup_submseteq; [apply NoDup_elements|].
  intros n Hin. apply elem_of_elements, elem_of_list_to_set in Hin.
  apply list_elem_of_fmap in Hin as (r & -> & Hr).
  destruct (decide (par r = par r2)) as [Heq|Hne].
  - apply list_elem_of_fmap. exists (par r1). split.
    + injection Heq as -> _. done.
    + apply elem_of_elements, elem_of_difference. split; [by apply Hpar|].
      rewrite elem_of_singleton. unfold par. congruence.
  - apply list_elem_of_fmap. exists (par r). split; [done|].
    apply elem_of_elements, elem_of_difference. split; [by apply Hpar|].
    by rewrite elem_of_singleton.
Qed.

Lemma courseNames_lt_courseCount {T} (rows : list (Row T)) c r1 r2 :
  r1 ∈ rows → r2 ∈ rows → curso r1 = c → curso r2 = c →
  nombre r1 = nombre r2 → correo r1 ≠ correo r2 →
  Spec.courseNames rows c < Spec.courseCount rows c.
Proof.
  intros H1 H2 Hc1 Hc2 Hn Hc.
  apply (names_lt_pairs _ r1 r2); [| |done..];
    by apply list_elem_of_filter.
Qed.

(** C10. When the records of a course contain two distinct (fullName,
    contactEmail) pairs with the same fullName, the document of every run
    that returns shows two different figures for that course: the N of its
    heading, which is the number of its distinct name+e-mail pairs, is
    strictly greater than the height of its bar in the chart, which is the
    number of its distinct names. *)
Theorem heading_count_exceeds_bar_height parse env author w pdf w' c r1 r2 :
  generate_report parse env author w = (Return pdf, w') →
  tmp_pdf env ≠ tmp_chart env →
  r1 ∈ inscritos (df w) → r2 ∈ inscritos (df w) →
  curso r1 = c → curso r2 = c →
  nombre r1 = nombre r2 → correo r1 ≠ correo r2 →
  ∃ story fig N altura,
    fs w' !! pdf = Some (PdfFile story [fig])
    ∧ Paragraph ("Curso: " +:+ c +:+ " (" +:+ str_nat N +:+ " inscritos)")
        Normal ∈ story
    ∧ N = Spec.courseCount (inscritos (df w)) c
    ∧ mkBar c altura ∈ bars fig
    ∧ altura = Spec.courseNames (inscritos (df w)) c
    ∧ (∀ b, b ∈ bars fig → bar_x b = c → bar_height b = altura)
    ∧ altura < N.
Proof.
  intros Hrun Hne H1 H2 Hc1 Hc2 Hn Hc.
  destruct (generate_report_Return _ _ _ _ _ _ Hrun Hne)
    as (rows & tmin & tmax & Hrows & _ & _ & _ & _ & Hpdf).
  assert (c ∈ curso <$> rows) as Hin.
  { rewrite (curso_hora_rows _ _ _ Hrows), <- Hc1.
    by apply list_elem_of_fmap_2. }
  eexists _, _, (Spec.courseCount rows c), (Spec.courseNames rows c).
  split; [exact Hpdf|]. split; [|split; [|split; [|split; [|split]]]].
  - apply elem_of_app. right. apply list_elem_of_bind. exists c.
    split; [|by apply conteo_cursos_index].
    rewrite seccion_curso_roster, length_roster. apply list_elem_of_here.
  - by eapply courseCount_hora_rows.
  - by apply elem_of_bars.
  - by eapply courseNames_hora_rows.
  - intros b Hb <-. by apply elem_of_bars in Hb as [_ ->].
  - rewrite (courseNames_hora_rows _ _ _ c Hrows),
      (courseCount_hora_rows _ _ _ c Hrows).
    by apply (courseNames_lt_courseCount _ c r1 r2).
Qed.

Lemma heading_count_exceeds_bar_height_witness :
  ∃ story fig N altura,
    fs (generate_report parse_iso Ejemplo.env Ejemplo.autor
          (Ejemplo.mundo Ejemplo.homonimos)).2 !! tmp_pdf Ejemplo.env
    = Some (PdfFile story [fig])
    ∧ Paragraph ("Curso: " +:+ "Excel" +:+ " (" +:+ str_nat N +:+ " inscritos)")
        Normal ∈ story
    ∧ N = Spec.courseCount (inscritos (df (Ejemplo.mundo Ejemplo.homonimos)))
            "Excel"
    ∧ mkBar "Excel" altura ∈ bars fig
    ∧ altura = Spec.courseNames
                 (inscritos (df (Ejemplo.mundo Ejemplo.homonimos))) "Excel"
    ∧ (∀ b, b ∈ bars fig → bar_x b = "Excel" → bar_height b = altura)
    ∧ altura < N.
Proof.
  apply (heading_count_exceeds_bar_height parse_iso Ejemplo.env Ejemplo.autor
           (Ejemplo.mundo Ejemplo.homonimos) (tmp_pdf Ejemplo.env) _ "Excel"
           (mkRow "Ana Ruiz" "ana.ruiz@mail.org" "Excel" tt)
           (mkRow "Ana Ruiz" "aruiz@corp.com" "Excel" tt)).
  - vm_compute. reflexivity.
  - vm_compute. discriminate.
  - apply list_elem_of_here.
  - apply list_elem_of_further, list_elem_of_here.
  - reflexivity.
  - reflexivity.
  - reflexivity.
  - vm_compute. discriminate.
Defined.

(** ** The caller's DataFrame *)

(** Against C8 as stated: after a call on a sheet whose "Hora de inicio"
    holds text, the caller's DataFrame is not what it was (the column now
    holds timestamps). *)
Lemma caller_dataframe_is_converted :
  df (generate_report parse_iso Ejemplo.env Ejemplo.autor
        (Ejemplo.mundo Ejemplo.escenario)).2
  ≠ df (Ejemplo.mundo Ejemplo.escenario).
Proof. vm_compute. discriminate. Qed.

Lemma to_datetime_is_Some parse rows :
  existsb (λ r, Spec.unparsable parse (hora r)) rows = false →
  ∃ rows', to_datetime parse rows = Some rows'.
Proof.
  intros Hnone. apply (mapM_is_Some_2 (B:=Row datetime)), Forall_forall.
  intros r Hr. simpl.
  destruct (to_datetime_cell parse (hora r)) as [d|] eqn:Hcell; [done|].
  assert (existsb (λ r, Spec.unparsable parse (hora r)) rows = true) as Hex;
    [|congruence].
  apply existsb_exists. exists r. split; [by apply list_elem_of_In|].
  destruct (hora r) as [s|d]; simpl in *; [|done].
  by apply bool_decide_eq_true.
Qed.

Lemma to_datetime_rows parse rows rows' :
  to_datetime parse rows = Some rows' →
  Forall2 (λ r r', to_datetime_cell parse (hora r) = Some (hora r')
                   ∧ forget r' = forget r) rows rows'.
Proof.
  intros Hm. apply mapM_Some_1 in Hm.
  eapply Forall2_impl; [exact Hm|]. intros r r' Hr. simpl in Hr.
  destruct (to_datetime_cell parse (hora r)); simplify_eq/=. done.
Qed.

(** The caller's DataFrame after a run, whatever its outcome. *)
Lemma generate_report_df parse env author w :
  df (generate_report parse env author w).2
  = match hora_rows parse (df w) with
    | Some rows => DatetimeFrame rows
    | None => df w
    end.
Proof.
  rewrite generate_report_unfold. cbv zeta.
  destruct (hora_rows parse (df w)) as [rows|]; [|done].
  destruct (pd.min (hora <$> rows)), (pd.max (hora <$> rows)); try done.
  by destruct (savefig_ok env), (build_ok env).
Qed.

(** C8, amended. [generate_report] changes at most the column "Hora de
    inicio" of the caller's DataFrame: the three text columns, the number
    and the order of the rows are never changed; a DataFrame whose column
    is already datetime64 is left as it was, and so is one with a value
    that cannot be parsed; otherwise the column is replaced, in the
    caller's DataFrame, by the parsed timestamps. *)
Theorem only_hora_de_inicio_is_converted parse env author w :
  let w' := (generate_report parse env author w).2 in
  inscritos (df w') = inscritos (df w)
  ∧ match df w with
    | DatetimeFrame _ => df w' = df w
    | ObjectFrame rows =>
        if Spec.has_unparsable parse (df w) then df w' = df w
        else ∃ rows',
          df w' = DatetimeFrame rows'
          ∧ Forall2 (λ r r', to_datetime_cell parse (hora r) = Some (hora r')
                             ∧ forget r' = forget r) rows rows'
    end.
Proof.
  cbv zeta. rewrite generate_report_df.
  destruct (hora_rows parse (df w)) as [rows|] eqn:Hrows.
  - split; [by apply (hora_rows_inscritos parse)|].
    destruct (df w) as [rows0|rows0] eqn:Hd; simpl in Hrows.
    + by simplify_eq.
    + cbn [Spec.has_unparsable]. destruct (existsb _ rows0) eqn:Hex.
      * pose proof (has_unparsable_hora_rows parse (ObjectFrame rows0) Hex).
        simpl in *. congruence.
      * exists rows. split; [done|]. by apply to_datetime_rows.
  - split; [done|].
    destruct (df w) as [rows0|rows0] eqn:Hd; simpl in Hrows; [done|].
    cbn [Spec.has_unparsable]. destruct (existsb _ rows0) eqn:Hex; [done|].
    destruct (to_datetime_is_Some parse rows0 Hex) as [? ?]. congruence.
Qed.

(** ** Two runs on the same inputs *)

(** C9. Two runs of [generate_report] that return, with the same author
    name and on the same dataset (the same values, or the very DataFrame
    the first run was given, as that run left it), write documents with the
    same text (headings, counts, tables) apart from the line that carries
    the generation date, and with the same chart. *)
Theorem same_text_on_same_inputs parse env1 env2 author w1 w2 pdf1 pdf2 w1' w2' :
  generate_report parse env1 author w1 = (Return pdf1, w1') →
  generate_report parse env2 author w2 = (Return pdf2, w2') →
  df w2 = df w1 ∨ df w2 = df w1' →
  tmp_pdf env1 ≠ tmp_chart env1 →
  tmp_pdf env2 ≠ tmp_chart env2 →
  ∃ story1 story2 figs antes despues,
    fs w1' !! pdf1 = Some (PdfFile story1 figs)
    ∧ fs w2' !! pdf2 = Some (PdfFile story2 figs)
    ∧ Spec.textual_content story1
      = antes ++ [Spec.fecha_de_elaboracion (now env1)] ++ despues
    ∧ Spec.textual_content story2
      = antes ++ [Spec.fecha_de_elaboracion (now env2)] ++ despues.
Proof.
  intros Hrun1 Hrun2 Hsame Hne1 Hne2.
  destruct (generate_report_Return _ _ _ _ _ _ Hrun1 Hne1)
    as (rows & tmin & tmax & Hrows & Hmin & Hmax & Hd1 & _ & Hpdf1).
  destruct (generate_report_Return _ _ _ _ _ _ Hrun2 Hne2)
    as (rows2 & tmin2 & tmax2 & Hrows2 & Hmin2 & Hmax2 & _ & _ & Hpdf2).
  assert (hora_rows parse (df w2) = Some rows) as Hrows2'.
  { destruct Hsame as [->| ->]; [done|]. by rewrite Hd1. }
  assert (rows2 = rows) as -> by congruence.
  assert (tmin2 = tmin) as -> by congruence.
  assert (tmax2 = tmax) as -> by congruence.
  assert (Spec.totalUniqueEnrollees (df w2) = Spec.totalUniqueEnrollees (df w1))
    as Htotal.
  { unfold Spec.totalUniqueEnrollees.
    by rewrite <- (hora_rows_inscritos _ _ _ Hrows),
               <- (hora_rows_inscritos _ _ _ Hrows2). }
  rewrite Htotal in Hpdf2.
  eexists _, _, _, [inl "REPORTE DE INSCRIPCIONES A CURSOS"], _.
  split; [exact Hpdf1|]. split; [exact Hpdf2|].
  unfold Spec.textual_content. rewrite !bind_app. split; reflexivity.
Qed.

Lemma same_text_on_same_inputs_witness :
  ∃ story1 story2 figs antes despues,
    fs (generate_report parse_iso Ejemplo.env Ejemplo.autor
          (Ejemplo.mundo Ejemplo.escenario)).2 !! tmp_pdf Ejemplo.env
    = Some (PdfFile story1 figs)
    ∧ fs (generate_report parse_iso Ejemplo.env' Ejemplo.autor
            (generate_report parse_iso Ejemplo.env Ejemplo.autor
               (Ejemplo.mundo Ejemplo.escenario)).2).2 !! tmp_pdf Ejemplo.env'
      = Some (PdfFile story2 figs)
    ∧ Spec.textual_content story1
      = antes ++ [Spec.fecha_de_elaboracion (now Ejemplo.env)] ++ despues
    ∧ Spec.textual_content story2
      = antes ++ [Spec.fecha_de_elaboracion (now Ejemplo.env')] ++ despues.
Proof.
  apply (same_text_on_same_inputs parse_iso Ejemplo.env Ejemplo.env'
           Ejemplo.autor (Ejemplo.mundo Ejemplo.escenario)
           (generate_report parse_iso Ejemplo.env Ejemplo.autor
              (Ejemplo.mundo Ejemplo.escenario)).2
           (tmp_pdf Ejemplo.env) (tmp_pdf Ejemplo.env')).
  - vm_compute. reflexivity.
  - vm_compute. reflexivity.
  - right. reflexivity.
  - vm_compute. discriminate.
  - vm_compute. discriminate.
Defined.

(** ** The per-course count against the distinct pairs *)

(** C1, at a failing input. With two people of the same name and different
    e-mails in the course "Excel", the count of the aggregation, drawn as
    the height of the bar, is 1, while the course has 2 distinct
    (fullName, contactEmail) pairs, as the heading of its own section in
    the same document says. *)
Theorem bar_height_counts_names_not_pairs :
  let w := Ejemplo.mundo Ejemplo.homonimos in
  let run := generate_report parse_iso Ejemplo.env Ejemplo.autor w in
  conteo_cursos (inscritos (df w)) = [("Excel", 1)]
  ∧ Spec.courseCount (inscritos (df w)) "Excel" = 2
  ∧ run.1 = Return (tmp_pdf Ejemplo.env)
  ∧ ∃ story,
      fs run.2 !! tmp_pdf Ejemplo.env
      = Some (PdfFile story [mkFigure [mkBar "Excel" 1] ["1"]])
      ∧ story !! 13 = Some (Paragraph "Curso: Excel (2 inscritos)" Normal).
Proof.
  cbv zeta. split; [by vm_compute|]. split; [by vm_compute|].
  split; [by vm_compute|]. eexists. split; vm_compute; reflexivity.
Qed.

(** Nor are the groups sorted by the number of distinct pairs: "Python",
    with 2 pairs, comes before "Excel", with 3. *)
Lemma groups_not_sorted_by_pairs :
  let rows := inscritos Ejemplo.tres_correos in
  conteo_cursos rows = [("Python", 2); ("Excel", 1)]
  ∧ Spec.courseCount rows "Python" = 2
  ∧ Spec.courseCount rows "Excel" = 3.
Proof. by vm_compute. Qed.

(** C6, at a failing input. With the same name under three e-mails in
    "Excel" and two names in "Python", the chart has the bar of "Python"
    (height 2) before the bar of "Excel" (height 1), and the document has
    its two sections in that order: "Python", whose per-course count is 2
    and whose heading says so, comes before "Excel", whose per-course count
    is 3 and whose heading says so. The earlier count is smaller than the
    later one. *)
Theorem sections_not_by_decreasing_count :
  let w := Ejemplo.mundo Ejemplo.tres_correos in
  let run := generate_report parse_iso Ejemplo.env Ejemplo.autor w in
  run.1 = Return (tmp_pdf Ejemplo.env)
  ∧ Spec.courseCount (inscritos (df w)) "Python" = 2
  ∧ Spec.courseCount (inscritos (df w)) "Excel" = 3
  ∧ ∃ story,
      fs run.2 !! tmp_pdf Ejemplo.env
      = Some (PdfFile story
                [mkFigure [mkBar "Python" 2; mkBar "Excel" 1] ["2"; "1"]])
      ∧ length story = 19
      ∧ story !! 13 = Some (Paragraph "Curso: Python (2 inscritos)" Normal)
      ∧ story !! 16 = Some (Paragraph "Curso: Excel (3 inscritos)" Normal).
Proof.
  cbv zeta. split; [by vm_compute|]. split; [by vm_compute|].
  split; [by vm_compute|]. eexists.
  split; [vm_compute; reflexivity|]. by vm_compute.
Qed.

(** ** Temporary files *)

(** The file system after a run, whatever its outcome. *)
Lemma generate_report_fs parse env author w :
  let run := generate_report parse env author w in
  let files := tmp_created env (fs w) in
  match run.1 with
  | Return _ =>
      ∃ story fig,
        fs run.2 = delete (tmp_chart env)
                     (<[tmp_pdf env := PdfFile story [fig]]>
                        (<[tmp_chart env := PngFile fig]> files))
  | Raise Error_build =>
      ∃ fig, fs run.2 = <[tmp_chart env := PngFile fig]> files
  | Raise _ => fs run.2 = files
  end.
Proof.
  cbv zeta. rewrite generate_report_unfold. cbv zeta.
  destruct (hora_rows parse (df w)) as [rows|]; [|done].
  destruct (pd.min (hora <$> rows)), (pd.max (hora <$> rows)); try done.
  destruct (savefig_ok env), (build_ok env); cbn [fst snd fs]; eauto.
Qed.

(** X17. No run that raises removes its temporary files: whatever the
    exception, both paths still hold a file after the call. *)
Lemma raise_leaves_temporary_files parse env author w e w' :
  generate_report parse env author w = (Raise e, w') →
  is_Some (fs w' !! tmp_pdf env) ∧ is_Some (fs w' !! tmp_chart env).
Proof.
  intros Hrun. pose proof (generate_report_fs parse env author w) as Hfs.
  cbv zeta in Hfs. rewrite Hrun in Hfs. cbn [fst snd] in Hfs.
  unfold tmp_created in Hfs.
  assert (∀ files : gmap string File,
            is_Some (<[tmp_chart env := EmptyFile]>
                       (<[tmp_pdf env := EmptyFile]> files) !! tmp_pdf env)
            ∧ is_Some (<[tmp_chart env := EmptyFile]>
                         (<[tmp_pdf env := EmptyFile]> files) !! tmp_chart env))
    as Hcreated.
  { intros files. rewrite lookup_insert_eq. split; [|done].
    rewrite lookup_insert. case_decide; [done|].
    by rewrite lookup_insert_eq. }
  destruct e; try (rewrite Hfs; apply Hcreated).
  destruct Hfs as [fig ->]. rewrite lookup_insert_eq. split; [|done].
  rewrite lookup_insert. case_decide; [done|]. apply Hcreated.
Qed.

(** A run that returns has removed the chart; the PDF stays, for the
    caller to read. *)
Lemma return_removes_the_chart parse env author w pdf w' :
  generate_report parse env author w = (Return pdf, w') →
  fs w' !! tmp_chart env = None.
Proof.
  intros Hrun. pose proof (generate_report_fs parse env author w) as Hfs.
  cbv zeta in Hfs. rewrite Hrun in Hfs. cbn [fst snd] in Hfs.
  destruct Hfs as (story & fig & ->). apply lookup_delete_eq.
Qed.

(** When the run returns and the caller of lines 199-206 has read and
    unlinked the PDF, the file system is what it was before. *)
Lemma caller_removes_the_pdf parse env author w bytes w' :
  generar_reporte_pdf parse env author w = (Return bytes, w') →
  fs w !! tmp_pdf env = None →
  fs w !! tmp_chart env = None →
  fs w' = fs w.
Proof.
  unfold generar_reporte_pdf. cbv [mbind M_bind mret M_ret unlink modify_fs].
  pose proof (generate_report_fs parse env author w) as Hfs.
  cbv zeta in Hfs.
  destruct (generate_report parse env author w) as [[pdf|e] w1] eqn:Hrun;
    [|done].
  assert (pdf = tmp_pdf env) as ->.
  { revert Hrun. rewrite generate_report_unfold. cbv zeta.
    destruct (hora_rows parse (df w)) as [rows|]; [|done].
    destruct (pd.min (hora <$> rows)), (pd.max (hora <$> rows)); try done.
    destruct (savefig_ok env), (build_ok env); try done. by intros [= <- _]. }
  cbn [fst snd] in Hfs. destruct Hfs as (story & fig & Hfs).
  intros [= _ <-] Hpdf Hchart. cbn [fs]. rewrite Hfs. unfold tmp_created.
  apply map_eq. intros path.
  rewrite !lookup_delete, !lookup_insert.
  repeat case_decide; simplify_eq; done.
Qed.

(** C4, at a failing input. On the sheet without records the call raises,
    and the two temporary files it created are still there afterwards,
    also after the caller of lines 199-206 is done. *)
Theorem temporary_files_remain_after_failure :
  let w := Ejemplo.mundo Ejemplo.vacio in
  let run := generate_report parse_iso Ejemplo.env Ejemplo.autor w in
  let called := generar_reporte_pdf parse_iso Ejemplo.env Ejemplo.autor w in
  run.1 = Raise ValueError_NaT_strftime
  ∧ fs w = ∅
  ∧ fs run.2 !! tmp_pdf Ejemplo.env = Some EmptyFile
  ∧ fs run.2 !! tmp_chart Ejemplo.env = Some EmptyFile
  ∧ called.1 = Raise ValueError_NaT_strftime
  ∧ fs called.2 !! tmp_pdf Ejemplo.env = Some EmptyFile
  ∧ fs called.2 !! tmp_chart Ejemplo.env = Some EmptyFile.
Proof. cbv zeta. repeat split; vm_compute; reflexivity. Qed.

(** ** The earliest and the latest timestamp *)

Lemma good_by_field f : good_cmp (by_field f).
Proof.
  unfold good_cmp, by_field. split; [|split].
  - intros a b. apply Nat.compare_antisym.
  - intros a b c. rewrite !Nat.compare_lt_iff. lia.
  - intros a b c Hab. apply Nat.compare_eq in Hab. by rewrite Hab.
Qed.

Lemma good_cmp_eq_r cmp a b c :
  good_cmp cmp → cmp a b = Eq → cmp c a = cmp c b.
Proof.
  intros (Hanti & _ & Heq) Hab.
  by rewrite (Hanti a c), (Hanti b c), (Heq a b c Hab).
Qed.

Lemma good_lexc c1 c2 : good_cmp c1 → good_cmp c2 → good_cmp (lexc c1 c2).
Proof.
  intros H1 H2.
  pose proof (good_cmp_eq_r c1) as Hr1.
  destruct H1 as (Hanti1 & Hlt1 & Heq1), H2 as (Hanti2 & Hlt2 & Heq2).
  unfold lexc. split; [|split].
  - intros a b. rewrite (Hanti1 a b), (Hanti2 a b).
    by destruct (c1 a b).
  - intros a b c Hab Hbc.
    destruct (c1 a b) eqn:E1; simpl in Hab; [| |done].
    + rewrite (Heq1 a b c E1).
      destruct (c1 b c) eqn:E2; simpl in *; [|done..]. by eapply Hlt2.
    + destruct (c1 b c) eqn:E2; simpl in Hbc; [| |done].
      * assert (c1 a c = Lt) as ->; [|done].
        rewrite <- E1. symmetry. apply Hr1; [|done]. by repeat split.
      * by rewrite (Hlt1 a b c E1 E2).
  - intros a b c Hab.
    destruct (c1 a b) eqn:E1; simpl in Hab; [|done..].
    by rewrite (Heq1 a b c E1), (Heq2 a b c Hab).
Qed.

Lemma ts_compare_good : good_cmp ts_compare.
Proof.
  change (good_cmp
            (lexc (by_field year) (lexc (by_field month) (lexc (by_field day)
               (lexc (by_field hour) (lexc (by_field minute)
                  (by_field second))))))).
  repeat apply good_lexc; apply good_by_field.
Qed.

Lemma ts_compare_refl a : ts_compare a a = Eq.
Proof.
  destruct ts_compare_good as (Hanti & _ & _).
  specialize (Hanti a a). by destruct (ts_compare a a).
Qed.

(** "Not later than" is transitive. *)
Lemma ts_compare_not_Gt_trans a b c :
  ts_compare a b ≠ Gt → ts_compare b c ≠ Gt → ts_compare a c ≠ Gt.
Proof.
  pose proof (good_cmp_eq_r ts_compare) as Hr.
  destruct ts_compare_good as (Hanti & Hlt & Heq).
  intros Hab Hbc.
  destruct (ts_compare a b) eqn:E1; [| |done].
  - by rewrite (Heq a b c E1).
  - destruct (ts_compare b c) eqn:E2; [| |done].
    + assert (ts_compare a c = Lt) as ->; [|done].
      rewrite <- E1. symmetry. apply Hr; [|done]. by repeat split.
    + by rewrite (Hlt a b c E1 E2).
Qed.

Lemma ts_min_spec a b :
  pd.ts_min a b ∈ [a; b]
  ∧ ts_compare (pd.ts_min a b) a ≠ Gt ∧ ts_compare (pd.ts_min a b) b ≠ Gt.
Proof.
  destruct ts_compare_good as (Hanti & _ & _).
  unfold pd.ts_min, ts_ltb. specialize (Hanti a b).
  destruct (ts_compare b a) eqn:E.
  - rewrite ts_compare_refl. split; [set_solver|]. split; [done|].
    by destruct (ts_compare a b).
  - rewrite ts_compare_refl, E. split; [set_solver|]. done.
  - rewrite ts_compare_refl. split; [set_solver|]. split; [done|].
    by destruct (ts_compare a b).
Qed.

Lemma ts_max_spec a b :
  pd.ts_max a b ∈ [a; b]
  ∧ ts_compare a (pd.ts_max a b) ≠ Gt ∧ ts_compare b (pd.ts_max a b) ≠ Gt.
Proof.
  destruct ts_compare_good as (Hanti & _ & _).
  unfold pd.ts_max, ts_ltb. specialize (Hanti a b).
  destruct (ts_compare a b) eqn:E.
  - rewrite ts_compare_refl. split; [set_solver|]. split; [done|].
    by rewrite Hanti.
  - rewrite ts_compare_refl, E. split; [set_solver|]. split; done.
  - rewrite ts_compare_refl. split; [set_solver|]. split; [done|].
    by rewrite Hanti.
Qed.

Lemma foldl_ts_min t ts :
  foldl pd.ts_min t ts ∈ t :: ts
  ∧ ∀ x, x ∈ t :: ts → ts_compare (foldl pd.ts_min t ts) x ≠ Gt.
Proof.
  revert t. induction ts as [|y ts IH]; intros t.
  - simpl. split; [set_solver|]. intros x ->%list_elem_of_singleton.
    by rewrite ts_compare_refl.
  - cbn [foldl]. destruct (IH (pd.ts_min t y)) as [Hin Hle].
    destruct (ts_min_spec t y) as (Hm & Hmt & Hmy).
    assert (ts_compare (foldl pd.ts_min (pd.ts_min t y) ts) (pd.ts_min t y)
            ≠ Gt) as Hfm by (apply Hle, list_elem_of_here).
    split.
    + rewrite !elem_of_cons. apply elem_of_cons in Hin as [Heq|Hin]; [|tauto].
      rewrite Heq. rewrite !elem_of_cons, elem_of_nil in Hm. tauto.
    + intros x Hx. rewrite !elem_of_cons in Hx.
      destruct Hx as [->|[->|Hx]].
      * by eapply ts_compare_not_Gt_trans.
      * by eapply ts_compare_not_Gt_trans.
      * apply Hle. by apply list_elem_of_further.
Qed.

Lemma foldl_ts_max t ts :
  foldl pd.ts_max t ts ∈ t :: ts
  ∧ ∀ x, x ∈ t :: ts → ts_compare x (foldl pd.ts_max t ts) ≠ Gt.
Proof.
  revert t. induction ts as [|y ts IH]; intros t.
  - simpl. split; [set_solver|]. intros x ->%list_elem_of_singleton.
    by rewrite ts_compare_refl.
  - cbn [foldl]. destruct (IH (pd.ts_max t y)) as [Hin Hle].
    destruct (ts_max_spec t y) as (Hm & Hmt & Hmy).
    assert (ts_compare (pd.ts_max t y) (foldl pd.ts_max (pd.ts_max t y) ts)
            ≠ Gt) as Hfm by (apply Hle, list_elem_of_here).
    split.
    + rewrite !elem_of_cons. apply elem_of_cons in Hin as [Heq|Hin]; [|tauto].
      rewrite Heq. rewrite !elem_of_cons, elem_of_nil in Hm. tauto.
    + intros x Hx. rewrite !elem_of_cons in Hx.
      destruct Hx as [->|[->|Hx]].
      * by eapply ts_compare_not_Gt_trans.
      * by eapply ts_compare_not_Gt_trans.
      * apply Hle. by apply list_elem_of_further.
Qed.

Lemma elem_of_dropna s t : t ∈ pd.dropna s ↔ TS t ∈ s.
Proof.
  unfold pd.dropna. rewrite list_elem_of_omap. split.
  - intros ([|t'] & Hin & Heq); simplify_eq. done.
  - intros Hin. by exists (TS t).
Qed.

(** [Series.min()]: a value of the column, not later than any other. *)
Lemma pd_min_TS s tmin :
  pd.min s = TS tmin →
  TS tmin ∈ s ∧ ∀ t, TS t ∈ s → ts_compare tmin t ≠ Gt.
Proof.
  unfold pd.min, pd.reduce. destruct (pd.dropna s) as [|t0 ts] eqn:Hs; [done|].
  intros [= <-]. destruct (foldl_ts_min t0 ts) as [Hin Hle].
  rewrite <- Hs in Hin, Hle. split; [by apply elem_of_dropna|].
  intros t Ht. by apply Hle, elem_of_dropna.
Qed.

(** [Series.max()]: a value of the column, not earlier than any other. *)
Lemma pd_max_TS s tmax :
  pd.max s = TS tmax →
  TS tmax ∈ s ∧ ∀ t, TS t ∈ s → ts_compare t tmax ≠ Gt.
Proof.
  unfold pd.max, pd.reduce. destruct (pd.dropna s) as [|t0 ts] eqn:Hs; [done|].
  intros [= <-]. destruct (foldl_ts_max t0 ts) as [Hin Hle].
  rewrite <- Hs in Hin, Hle. split; [by apply elem_of_dropna|].
  intros t Ht. by apply Hle, elem_of_dropna.
Qed.

(** X1. In the document of every run that returns, the two dates of the
    general-information block are timestamps of the column "Hora de
    inicio" (as converted): the first is not later, and the second not
    earlier, than any timestamp of the column. *)
Theorem fechas_are_earliest_and_latest parse env author w pdf w' :
  generate_report parse env author w = (Return pdf, w') →
  tmp_pdf env ≠ tmp_chart env →
  ∃ story figs rows tmin tmax,
    fs w' !! pdf = Some (PdfFile story figs)
    ∧ df w' = DatetimeFrame rows
    ∧ story !! 6
      = Some (Paragraph ("Fecha de inicio de inscripciones: <b>"
                         +:+ strftime_dmY_HM tmin +:+ "</b>") Normal)
    ∧ story !! 7
      = Some (Paragraph ("Fecha de finalización de inscripciones: <b>"
                         +:+ strftime_dmY_HM tmax +:+ "</b>") Normal)
    ∧ TS tmin ∈ hora <$> rows
    ∧ TS tmax ∈ hora <$> rows
    ∧ ∀ t, TS t ∈ hora <$> rows →
        ts_compare tmin t ≠ Gt ∧ ts_compare t tmax ≠ Gt.
Proof.
  intros Hrun Hne.
  destruct (generate_report_Return _ _ _ _ _ _ Hrun Hne)
    as (rows & tmin & tmax & _ & Hmin & Hmax & Hdf & _ & Hpdf).
  apply pd_min_TS in Hmin as [Hmin_in Hmin]. apply pd_max_TS in Hmax as [Hmax_in Hmax].
  eexists _, _, rows, tmin, tmax.
  split; [exact Hpdf|]. split; [done|]. split; [reflexivity|].
  split; [reflexivity|]. split; [done|]. split; [done|].
  intros t Ht. split; [by apply Hmin|by apply Hmax].
Qed.

Lemma fechas_are_earliest_and_latest_witness :
  ∃ story figs rows tmin tmax,
    fs (generate_report parse_iso Ejemplo.env Ejemplo.autor
          (Ejemplo.mundo Ejemplo.escenario)).2 !! tmp_pdf Ejemplo.env
    = Some (PdfFile story figs)
    ∧ df (generate_report parse_iso Ejemplo.env Ejemplo.autor
            (Ejemplo.mundo Ejemplo.escenario)).2 = DatetimeFrame rows
    ∧ story !! 6
      = Some (Paragraph ("Fecha de inicio de inscripciones: <b>"
                         +:+ strftime_dmY_HM tmin +:+ "</b>") Normal)
    ∧ story !! 7
      = Some (Paragraph ("Fecha de finalización de inscripciones: <b>"
                         +:+ strftime_dmY_HM tmax +:+ "</b>") Normal)
    ∧ TS tmin ∈ hora <$> rows
    ∧ TS tmax ∈ hora <$> rows
    ∧ ∀ t, TS t ∈ hora <$> rows →
        ts_compare tmin t ≠ Gt ∧ ts_compare t tmax ≠ Gt.
Proof.
  apply (fechas_are_earliest_and_latest parse_iso Ejemplo.env Ejemplo.autor
           (Ejemplo.mundo Ejemplo.escenario) (tmp_pdf Ejemplo.env)).
  - vm_compute. reflexivity.
  - vm_compute. discriminate.
Defined.

(** ** How many bars and sections *)

Lemma length_secciones {T} (rows : list (Row T)) cs :
  length (cs ≫= seccion_curso rows) = 3 * length cs.
Proof.
  induction cs as [|c cs IH]; [done|].
  rewrite bind_cons, length_app, IH. simpl. lia.
Qed.

Lemma length_conteo_cursos {T} (rows : list (Row T)) :
  length (conteo_cursos rows)
  = size (list_to_set (curso <$> rows) : gset string).
Proof.
  rewrite <- (length_fmap fst).
  rewrite <- (size_list_to_set (C:=gset string))
    by apply NoDup_conteo_cursos_index.
  f_equal. apply set_eq. intros c.
  rewrite !elem_of_list_to_set. apply conteo_cursos_index.
Qed.

(** X2. The document of every run that returns has one bar and one
    section per distinct course of the dataset, no course twice: as many
    bars as distinct courses, thirteen flowables before the sections and
    three per course, and above each bar the text of its height. *)
Theorem one_bar_and_one_section_per_course parse env author w pdf w' :
  generate_report parse env author w = (Return pdf, w') →
  tmp_pdf env ≠ tmp_chart env →
  ∃ story fig,
    fs w' !! pdf = Some (PdfFile story [fig])
    ∧ NoDup (bar_x <$> bars fig)
    ∧ (∀ c, c ∈ bar_x <$> bars fig ↔ c ∈ curso <$> inscritos (df w))
    ∧ length (bars fig)
      = size (list_to_set (curso <$> inscritos (df w)) : gset string)
    ∧ length story = 13 + 3 * length (bars fig)
    ∧ bar_labels fig = (λ b, str_nat (bar_height b)) <$> bars fig.
Proof.
  intros Hrun Hne.
  destruct (generate_report_Return _ _ _ _ _ _ Hrun Hne)
    as (rows & tmin & tmax & Hrows & _ & _ & _ & _ & Hpdf).
  eexists _, (bar_chart (conteo_cursos rows)). split; [exact Hpdf|].
  rewrite bar_x_bar_chart, bars_bar_chart, length_fmap.
  rewrite <- (curso_hora_rows _ _ _ Hrows).
  split; [apply NoDup_conteo_cursos_index|].
  split; [apply conteo_cursos_index|].
  split; [apply length_conteo_cursos|].
  split; [|done].
  rewrite length_app, length_secciones, length_fmap. reflexivity.
Qed.

Lemma one_bar_and_one_section_per_course_witness :
  ∃ story fig,
    fs (generate_report parse_iso Ejemplo.env Ejemplo.autor
          (Ejemplo.mundo Ejemplo.tres_correos)).2 !! tmp_pdf Ejemplo.env
    = Some (PdfFile story [fig])
    ∧ NoDup (bar_x <$> bars fig)
    ∧ (∀ c, c ∈ bar_x <$> bars fig
            ↔ c ∈ curso <$> inscritos (df (Ejemplo.mundo Ejemplo.tres_correos)))
    ∧ length (bars fig)
      = size (list_to_set
                (curso <$> inscritos (df (Ejemplo.mundo Ejemplo.tres_correos)))
              : gset string)
    ∧ length story = 13 + 3 * length (bars fig)
    ∧ bar_labels fig = (λ b, str_nat (bar_height b)) <$> bars fig.
Proof.
  apply (one_bar_and_one_section_per_course parse_iso Ejemplo.env
           Ejemplo.autor (Ejemplo.mundo Ejemplo.tres_correos)
           (tmp_pdf Ejemplo.env)).
  - vm_compute. reflexivity.
  - vm_compute. discriminate.
Defined.

(** ** Which way a run ends *)

(** X3. How a call ends is decided in this order: a value that is no date
    raises the error of [pd.to_datetime]; else a column without any
    timestamp (an empty sheet, or only missing values) raises the error of
    [NaT.strftime]; else a failure of [plt.savefig], then of [doc.build],
    is raised; else the call returns the path of the temporary PDF. *)
Theorem generate_report_outcome parse env author w :
  (generate_report parse env author w).1
  = match hora_rows parse (df w) with
    | None => Raise ValueError_to_datetime
    | Some rows =>
        match pd.dropna (hora <$> rows) with
        | [] => Raise ValueError_NaT_strftime
        | _ :: _ =>
            if negb (savefig_ok env) then Raise Error_savefig
            else if negb (build_ok env) then Raise Error_build
            else Return (tmp_pdf env)
        end
    end.
Proof.
  rewrite generate_report_unfold. cbv zeta.
  destruct (hora_rows parse (df w)) as [rows|]; [|done].
  unfold pd.min, pd.max, pd.reduce.
  destruct (pd.dropna (hora <$> rows)); [done|].
  by destruct (savefig_ok env), (build_ok env).
Qed.

(** X4. After one call, whatever its outcome, further calls leave the
    caller's DataFrame as that call left it: the column is converted at
    most once. *)
Theorem dataframe_is_converted_once parse env env' author author' w files :
  let w1 := (generate_report parse env author w).2 in
  df (generate_report parse env' author' (mkWorld files (df w1))).2 = df w1.
Proof.
  cbv zeta. rewrite !generate_report_df. cbn [df].
  destruct (hora_rows parse (df w)) as [rows|] eqn:Hrows; [done|].
  by rewrite Hrows.
Qed.

(** ** The file system around a call *)

(** X5. A call changes no file but its two temporary files, whatever its
    outcome. *)
Theorem only_temporary_paths_change parse env author w path :
  path ≠ tmp_pdf env → path ≠ tmp_chart env →
  fs (generate_report parse env author w).2 !! path = fs w !! path.
Proof.
  intros Hpdf Hchart.
  pose proof (generate_report_fs parse env author w) as Hfs. cbv zeta in Hfs.
  assert (tmp_created env (fs w) !! path = fs w !! path) as Hcreated.
  { unfold tmp_created. by rewrite !lookup_insert_ne. }
  destruct ((generate_report parse env author w).1) as [p|e].
  - destruct Hfs as (story & fig & ->).
    by rewrite lookup_delete_ne, !lookup_insert_ne.
  - destruct e; try (by rewrite Hfs).
    destruct Hfs as [fig ->]. by rewrite lookup_insert_ne.
Qed.

Lemma only_temporary_paths_change_witness :
  fs (generate_report parse_iso Ejemplo.env Ejemplo.autor
        (Caso.con_archivo Ejemplo.escenario)).2
    !! "/home/oscar/inscripciones.xlsx"
  = fs (Caso.con_archivo Ejemplo.escenario) !! "/home/oscar/inscripciones.xlsx".
Proof.
  apply (only_temporary_paths_change parse_iso Ejemplo.env Ejemplo.autor
           (Caso.con_archivo Ejemplo.escenario)).
  - vm_compute. discriminate.
  - vm_compute. discriminate.
Defined.

Lemma raise_leaves_temporary_files_witness :
  is_Some (fs (generate_report parse_iso Caso.env_sin_pdf Ejemplo.autor
                 (Ejemplo.mundo Ejemplo.escenario)).2
             !! tmp_pdf Caso.env_sin_pdf)
  ∧ is_Some (fs (generate_report parse_iso Caso.env_sin_pdf Ejemplo.autor
                   (Ejemplo.mundo Ejemplo.escenario)).2
               !! tmp_chart Caso.env_sin_pdf).
Proof.
  apply (raise_leaves_temporary_files parse_iso Caso.env_sin_pdf Ejemplo.autor
           (Ejemplo.mundo Ejemplo.escenario) Error_build).
  vm_compute. reflexivity.
Defined.

Lemma return_removes_the_chart_witness :
  fs (generate_report parse_iso Ejemplo.env Ejemplo.autor
        (Ejemplo.mundo Ejemplo.escenario)).2 !! tmp_chart Ejemplo.env = None.
Proof.
  apply (return_removes_the_chart parse_iso Ejemplo.env Ejemplo.autor
           (Ejemplo.mundo Ejemplo.escenario) (tmp_pdf Ejemplo.env)).
  vm_compute. reflexivity.
Defined.

Lemma caller_removes_the_pdf_witness :
  fs (generar_reporte_pdf parse_iso Ejemplo.env Ejemplo.autor
        (Caso.con_archivo Ejemplo.escenario)).2
  = fs (Caso.con_archivo Ejemplo.escenario).
Proof.
  eapply (caller_removes_the_pdf parse_iso Ejemplo.env Ejemplo.autor
            (Caso.con_archivo Ejemplo.escenario)).
  - vm_compute. reflexivity.
  - vm_compute. reflexivity.
  - vm_compute. reflexivity.
Defined.

(** ** The runs of [main] *)

Lemma convert_hora_de_inicio_unfold parse w :
  convert_hora_de_inicio parse w
  = match hora_rows parse (df w) with
    | Some rows => (Return rows, mkWorld (fs w) (DatetimeFrame rows))
    | None => (Raise ValueError_to_datetime, w)
    end.
Proof.
  destruct w as [files [rows|rows]];
    unfold convert_hora_de_inicio, get_df, set_df, raise;
    cbv [mbind M_bind mret M_ret]; cbn [fs df hora_rows]; [done|].
  by destruct (to_datetime parse rows).
Qed.

Lemma generar_reporte_pdf_unfold parse env author w :
  generar_reporte_pdf parse env author w
  = match generate_report parse env author w with
    | (Return pdf_path, w1) =>
        (Return (default EmptyFile (fs w1 !! pdf_path)),
         mkWorld (delete pdf_path (fs w1)) (df w1))
    | (Raise e, w1) => (Raise e, w1)
    end.
Proof.
  unfold generar_reporte_pdf, unlink, modify_fs.
  cbv [mbind M_bind mret M_ret].
  by destruct (generate_report parse env author w) as [[pdf|e] w1].
Qed.

Lemma missing_columns_spec columns c :
  c ∈ missing_columns columns ↔ c ∈ required_columns ∧ c ∉ columns.
Proof. unfold missing_columns. rewrite list_elem_of_filter. tauto. Qed.

Lemma missing_columns_nil columns :
  missing_columns columns = [] ↔ ∀ c, c ∈ required_columns → c ∈ columns.
Proof.
  split.
  - intros Hnil c Hc. destruct (decide (c ∈ columns)) as [|Hnot]; [done|].
    assert (c ∈ missing_columns columns) as Hin
      by by apply missing_columns_spec.
    rewrite Hnil in Hin. by apply elem_of_nil in Hin.
  - intros Hall. destruct (missing_columns columns) as [|c l] eqn:Hm; [done|].
    assert (c ∈ missing_columns columns) as Hin
      by (rewrite Hm; apply list_elem_of_here).
    apply missing_columns_spec in Hin as [Hc Hnot]. by apply Hall in Hc.
Qed.

(** One run of the script, path by path. *)
Lemma run_main_unfold parse dias uploaded_file author button env w :
  run_main parse dias uploaded_file author button env w
  = (Return tt,
     let cab := mostrados (cabecera author) in
     let lat := mostrados barra_lateral in
     match uploaded_file with
     | None => mkPagina w (cab ++ lat)
     | Some columns =>
         match missing_columns columns with
         | _ :: _ =>
             mkPagina w
               (cab ++ [error_columnas (missing_columns columns)] ++ lat)
         | [] =>
             match hora_rows parse (df w) with
             | None =>
                 mkPagina w
                   (cab ++ vista_y_totales (df w)
                    ++ error_mostrado ValueError_to_datetime ++ lat)
             | Some rows =>
                 let w1 := mkWorld (fs w) (DatetimeFrame rows) in
                 let hasta_boton :=
                   cab ++ vista_y_totales (df w)
                   ++ [ st_metric "Rango de Fechas"
                          (Texto (date_range dias rows));
                        st_button "Generar Reporte PDF" ] in
                 if button then
                   match generar_reporte_pdf parse env author w1 with
                   | (Return pdf_bytes, w2) =>
                       mkPagina w2 (hasta_boton ++ descarga pdf_bytes ++ lat)
                   | (Raise e, w2) =>
                       mkPagina w2 (hasta_boton ++ error_mostrado e ++ lat)
                   end
                 else mkPagina w1 (hasta_boton ++ lat)
             end
         end
     end).
Proof.
  unfold run_main, main, try_except, except_Exception.
  destruct uploaded_file as [columns|]; [|reflexivity].
  unfold procesar.
  destruct (missing_columns columns) as [|c l] eqn:Hm.
  - assert ("Hora de inicio" ∈ columns) as Hhora.
    { apply (proj1 (missing_columns_nil columns) Hm).
      do 3 apply list_elem_of_further. apply list_elem_of_here. }
    rewrite (decide_False (P:=[] ≠ [])) by (intros H; by apply H).
    rewrite (decide_True (P:="Hora de inicio" ∈ columns)) by done.
    unfold lift at 2 3. cbv [mbind UI_bind mret UI_ret cabecera show lift get_df].
    cbn [world shown fst snd].
    rewrite convert_hora_de_inicio_unfold.
    destruct (hora_rows parse (df w)) as [rows|]; [|reflexivity].
    cbn [world shown]. destruct button; [|reflexivity].
    cbn [world shown].
    destruct (generar_reporte_pdf parse env author
                (mkWorld (fs w) (DatetimeFrame rows))) as [[bytes|e] w2];
      reflexivity.
  - rewrite (decide_True (P:=c :: l ≠ [])) by done. reflexivity.
Qed.

Lemma cabecera_elements author e :
  e ∈ mostrados (cabecera author) → de_cabecera e.
Proof.
  unfold mostrados, cabecera, show. cbv [mbind UI_bind mret UI_ret].
  cbn [shown world snd app]. rewrite !elem_of_cons, elem_of_nil.
  intros [->|[->|[->|[->|[]]]]]; exact I.
Qed.

Lemma barra_lateral_elements e :
  e ∈ mostrados barra_lateral → de_barra_lateral e.
Proof.
  unfold mostrados, barra_lateral, show. cbv [mbind UI_bind mret UI_ret].
  cbn [shown world snd app]. rewrite !elem_of_cons, elem_of_nil.
  intros [->|[->|[->|[->|[]]]]]; exact I.
Qed.

(** Converting the column first, as [main] does, changes nothing of what
    [generate_report] then does. *)
Lemma generate_report_after_conversion parse env author w rows :
  hora_rows parse (df w) = Some rows →
  generate_report parse env author (mkWorld (fs w) (DatetimeFrame rows))
  = generate_report parse env author w.
Proof.
  intros Hrows. rewrite !generate_report_unfold. cbn [fs df hora_rows].
  rewrite Hrows. cbn [inscritos].
  by rewrite (hora_rows_inscritos _ _ _ Hrows).
Qed.

(** Where a download button can be on the page. *)
Lemma download_shown parse dias uploaded_file author button env w l d f m :
  st_download_button l d f m
    ∈ shown (run_main parse dias uploaded_file author button env w).2
  ↔ ∃ columns rows w2,
      uploaded_file = Some columns
      ∧ missing_columns columns = []
      ∧ button = true
      ∧ hora_rows parse (df w) = Some rows
      ∧ generar_reporte_pdf parse env author
          (mkWorld (fs w) (DatetimeFrame rows)) = (Return d, w2)
      ∧ l = "Descargar Reporte PDF"
      ∧ f = "reporte_inscritos.pdf" ∧ m = "application/pdf".
Proof.
  rewrite run_main_unfold. cbv zeta. cbn [snd].
  set (boton := st_download_button l d f m).
  assert (boton ∈ mostrados (cabecera author) → False) as Hcab
    by (intros He%cabecera_elements; exact He).
  assert (boton ∈ mostrados barra_lateral → False) as Hlat
    by (intros He%barra_lateral_elements; exact He).
  assert (∀ d0, boton ∈ vista_y_totales d0 → False) as Hvista.
  { intros d0 He. unfold vista_y_totales in He.
    rewrite !elem_of_cons, elem_of_nil in He.
    destruct He as [?|[?|[?|[?|[?|[?|[]]]]]]]; discriminate. }
  assert (∀ e0, boton ∈ error_mostrado e0 → False) as Herror.
  { intros e0 He. unfold error_mostrado in He.
    rewrite !elem_of_cons, elem_of_nil in He.
    destruct He as [?|[?|[]]]; discriminate. }
  assert (∀ s, boton ∈ [ st_metric "Rango de Fechas" (Texto s);
                         st_button "Generar Reporte PDF" ] → False)
    as Hboton.
  { intros s He. rewrite !elem_of_cons, elem_of_nil in He.
    destruct He as [?|[?|[]]]; discriminate. }
  assert (∀ l0, boton ∈ [error_columnas l0] → False) as Hcol.
  { intros l0 He. rewrite !elem_of_cons, elem_of_nil in He.
    destruct He as [?|[]]; discriminate. }
  split.
  - destruct uploaded_file as [columns|]; cbn [shown].
    + destruct (missing_columns columns) eqn:Hm; cbn [shown].
      * destruct (hora_rows parse (df w)) as [rows|] eqn:Hrows; cbn [shown].
        -- set (botones := [st_metric _ _; st_button _]).
           destruct button; cbn [shown].
           ++ destruct (generar_reporte_pdf parse env author _)
                as [[bytes|e] w2] eqn:Hgen; cbn [shown];
                rewrite !elem_of_app;
                intros [[H|[H|H]]|[H|H]];
                try (by destruct (Hcab H)); try (by destruct (Hvista _ H));
                try (by destruct (Hlat H)); try (by destruct (Herror _ H));
                try (by destruct (Hboton _ H)).
              unfold descarga, boton in H.
              rewrite !elem_of_cons, elem_of_nil in H.
              destruct H as [[= <- <- <- <-]|[?|[]]]; [|discriminate].
              by exists columns, rows, w2.
           ++ rewrite !elem_of_app.
              intros [[H|[H|H]]|H];
                try (by destruct (Hcab H)); try (by destruct (Hvista _ H));
                try (by destruct (Hlat H)); by destruct (Hboton _ H).
        -- rewrite !elem_of_app.
           intros [H|[H|[H|H]]];
             [by destruct (Hcab H)|by destruct (Hvista _ H)
             |by destruct (Herror _ H)|by destruct (Hlat H)].
      * rewrite !elem_of_app.
        intros [H|[H|H]];
          [by destruct (Hcab H)|by destruct (Hcol _ H)|by destruct (Hlat H)].
    + rewrite !elem_of_app.
      intros [H|H]; [by destruct (Hcab H)|by destruct (Hlat H)].
  - intros (columns & rows & w2 & -> & Hm & -> & Hrows & Hgen & -> & -> & ->).
    rewrite Hm, Hrows, Hgen. cbn [shown].
    rewrite !elem_of_app. right. left. apply list_elem_of_here.
Qed.

(** X8. A run that returns leaves exactly one new file, the PDF at the
    path it returns: with fresh temporary names, the file system after the
    call is the one before it plus that file. *)
Theorem return_leaves_only_the_pdf parse env author w pdf w' :
  generate_report parse env author w = (Return pdf, w') →
  fs w !! tmp_pdf env = None →
  fs w !! tmp_chart env = None →
  tmp_pdf env ≠ tmp_chart env →
  ∃ story fig, fs w' = <[pdf := PdfFile story [fig]]> (fs w).
Proof.
  intros Hrun Hpdf Hchart Hne.
  destruct (generate_report_Return _ _ _ _ _ _ Hrun Hne)
    as (_ & _ & _ & _ & _ & _ & _ & -> & _).
  pose proof (generate_report_fs parse env author w) as Hfs.
  cbv zeta in Hfs. rewrite Hrun in Hfs. cbn [fst snd] in Hfs.
  destruct Hfs as (story & fig & ->). exists story, fig.
  unfold tmp_created. apply map_eq. intros path.
  rewrite lookup_delete, !lookup_insert.
  repeat case_decide; simplify_eq; done.
Qed.

Lemma return_leaves_only_the_pdf_witness :
  ∃ story fig,
    fs (generate_report parse_iso Ejemplo.env Ejemplo.autor
          (Caso.con_archivo Ejemplo.escenario)).2
    = <[tmp_pdf Ejemplo.env := PdfFile story [fig]]>
        (fs (Caso.con_archivo Ejemplo.escenario)).
Proof.
  apply (return_leaves_only_the_pdf parse_iso Ejemplo.env Ejemplo.autor
           (Caso.con_archivo Ejemplo.escenario)).
  - vm_compute. reflexivity.
  - vm_compute. reflexivity.
  - vm_compute. reflexivity.
  - vm_compute. discriminate.
Defined.

(** X9. A sheet that lacks a required column is rejected before anything
    of it is read: the page shows the head, one error that names the
    missing columns (each required column the sheet lacks, in the order of
    the list of line 170) and the sidebar; the world is left as it was. *)
Theorem main_rejects_incomplete_sheet
    parse dias columns author button env w c :
  c ∈ required_columns → c ∉ columns →
  run_main parse dias (Some columns) author button env w
  = (Return tt,
     mkPagina w
       (mostrados (cabecera author)
        ++ [ st_error
               ("El archivo Excel no contiene las siguientes columnas requeridas: "
                +:+ str_join ", " (missing_columns columns)) ]
        ++ mostrados barra_lateral))
  ∧ c ∈ missing_columns columns
  ∧ missing_columns columns `sublist_of` required_columns
  ∧ ∀ c', c' ∈ missing_columns columns
          ↔ c' ∈ required_columns ∧ c' ∉ columns.
Proof.
  intros Hc Hnot.
  assert (c ∈ missing_columns columns) as Hin by by apply missing_columns_spec.
  split; [|split; [done|split]].
  - rewrite run_main_unfold. cbv zeta.
    destruct (missing_columns columns) eqn:Hm; [|done].
    by apply elem_of_nil in Hin.
  - apply sublist_filter.
  - apply missing_columns_spec.
Qed.

Lemma main_rejects_incomplete_sheet_witness :
  run_main parse_iso dias_enteros (Some Caso.columnas_incompletas)
    Ejemplo.autor true Ejemplo.env (Ejemplo.mundo Ejemplo.escenario)
  = (Return tt,
     mkPagina (Ejemplo.mundo Ejemplo.escenario)
       (mostrados (cabecera Ejemplo.autor)
        ++ [ st_error
               ("El archivo Excel no contiene las siguientes columnas requeridas: "
                +:+ str_join ", " (missing_columns Caso.columnas_incompletas)) ]
        ++ mostrados barra_lateral))
  ∧ "Correo de contacto" ∈ missing_columns Caso.columnas_incompletas
  ∧ missing_columns Caso.columnas_incompletas `sublist_of` required_columns
  ∧ ∀ c', c' ∈ missing_columns Caso.columnas_incompletas
          ↔ c' ∈ required_columns ∧ c' ∉ Caso.columnas_incompletas.
Proof.
  apply (main_rejects_incomplete_sheet parse_iso dias_enteros
           Caso.columnas_incompletas Ejemplo.autor true Ejemplo.env
           (Ejemplo.mundo Ejemplo.escenario) "Correo de contacto").
  - apply list_elem_of_further, list_elem_of_here.
  - unfold Caso.columnas_incompletas.
    rewrite !elem_of_cons, elem_of_nil. intros [?|[?|[?|[]]]]; discriminate.
Defined.

(** X10. No exception leaves [main]: every run ends normally, and the page
    it shows starts with the head (title, introduction, the two inputs)
    and ends with the sidebar, also after an error. *)
Theorem main_never_raises parse dias uploaded_file author button env w :
  ∃ cuerpo,
    (run_main parse dias uploaded_file author button env w).1 = Return tt
    ∧ shown (run_main parse dias uploaded_file author button env w).2
      = mostrados (cabecera author) ++ cuerpo ++ mostrados barra_lateral.
Proof.
  rewrite run_main_unfold. cbv zeta. cbn [fst snd].
  destruct uploaded_file as [columns|]; [|by exists []].
  destruct (missing_columns columns); [|by eexists].
  set (cab := mostrados (cabecera author)).
  destruct (hora_rows parse (df w)) as [rows|].
  - destruct button.
    + destruct (generar_reporte_pdf parse env author _) as [[bytes|e] w2];
        eexists; (split; [done|]); cbn [shown];
        rewrite <- (app_assoc cab); f_equal; apply app_assoc.
    + eexists. split; [done|]. cbn [shown]. by rewrite <- (app_assoc cab).
  - eexists. split; [done|]. cbn [shown]. f_equal. apply app_assoc.
Qed.

Lemma generar_reporte_pdf_Return parse env author w bytes w2 :
  generar_reporte_pdf parse env author w = (Return bytes, w2) →
  ∃ w1,
    generate_report parse env author w = (Return (tmp_pdf env), w1)
    ∧ bytes = default EmptyFile (fs w1 !! tmp_pdf env)
    ∧ w2 = mkWorld (delete (tmp_pdf env) (fs w1)) (df w1).
Proof.
  rewrite generar_reporte_pdf_unfold.
  destruct (generate_report parse env author w) as [[pdf|e] w1] eqn:Hrun;
    [|done].
  intros [= <- <-]. exists w1.
  assert (pdf = tmp_pdf env) as ->; [|done].
  revert Hrun. rewrite generate_report_unfold. cbv zeta.
  destruct (hora_rows parse (df w)) as [rows|]; [|done].
  destruct (pd.min (hora <$> rows)), (pd.max (hora <$> rows)); try done.
  destruct (savefig_ok env), (build_ok env); try done. by intros [= <- _].
Qed.

(** X11. The page offers the download exactly when a sheet with the four
    required columns was uploaded, the button was pressed, every value of
    "Hora de inicio" is a date, at least one of them is not missing, and
    the chart and the PDF could be written. *)
Theorem main_offers_download_iff
    parse dias uploaded_file author button env w :
  (∃ label data file_name mime,
     st_download_button label data file_name mime
       ∈ shown (run_main parse dias uploaded_file author button env w).2)
  ↔ ∃ columns rows,
      uploaded_file = Some columns
      ∧ (∀ c, c ∈ required_columns → c ∈ columns)
      ∧ button = true
      ∧ hora_rows parse (df w) = Some rows
      ∧ pd.dropna (hora <$> rows) ≠ []
      ∧ savefig_ok env = true ∧ build_ok env = true.
Proof.
  split.
  - intros (l & d & f & m & Hin).
    apply download_shown
      in Hin as (columns & rows & w2 & -> & Hm & -> & Hrows & Hgen & _).
    exists columns, rows. split; [done|].
    split; [by apply missing_columns_nil|]. split; [done|]. split; [done|].
    apply generar_reporte_pdf_Return in Hgen as (w1 & Hrun & _).
    revert Hrun. rewrite generate_report_unfold. cbv zeta. cbn [df hora_rows].
    unfold pd.min, pd.max, pd.reduce.
    destruct (pd.dropna (hora <$> rows)); [done|].
    by destruct (savefig_ok env), (build_ok env).
  - intros (columns & rows & -> & Hcols & -> & Hrows & Hsome & Hsave & Hbuild).
    destruct (generate_report_returns parse env author
                (mkWorld (fs w) (DatetimeFrame rows)) rows)
      as [w1 Hrun]; [done..|].
    eexists _, _, _, _. apply download_shown.
    exists columns, rows. eexists.
    split; [done|]. split; [by apply missing_columns_nil|].
    split; [done|]. split; [done|]. split; [|done].
    rewrite generar_reporte_pdf_unfold, Hrun. reflexivity.
Qed.

(** X12. What the download button carries is the report: the PDF that
    [generate_report], called on the sheet as uploaded, writes at the path
    it returns, under the file name "reporte_inscritos.pdf" and the type
    "application/pdf". *)
Theorem main_download_is_the_report
    parse dias uploaded_file author button env w label data file_name mime :
  st_download_button label data file_name mime
    ∈ shown (run_main parse dias uploaded_file author button env w).2 →
  tmp_pdf env ≠ tmp_chart env →
  ∃ story figs w',
    generate_report parse env author w = (Return (tmp_pdf env), w')
    ∧ fs w' !! tmp_pdf env = Some (PdfFile story figs)
    ∧ data = PdfFile story figs
    ∧ label = "Descargar Reporte PDF"
    ∧ file_name = "reporte_inscritos.pdf"
    ∧ mime = "application/pdf".
Proof.
  intros Hin Hne.
  apply download_shown
    in Hin as (columns & rows & w2 & -> & Hm & -> & Hrows & Hgen & -> & -> & ->).
  apply generar_reporte_pdf_Return in Hgen as (w1 & Hrun & -> & _).
  rewrite (generate_report_after_conversion _ _ _ _ _ Hrows) in Hrun.
  destruct (generate_report_Return _ _ _ _ _ _ Hrun Hne)
    as (rows' & tmin & tmax & _ & _ & _ & _ & _ & Hpdf).
  eexists _, _, w1. split; [done|]. split; [exact Hpdf|].
  by rewrite Hpdf.
Qed.

Lemma main_download_is_the_report_witness :
  ∃ story figs w',
    generate_report parse_iso Ejemplo.env Ejemplo.autor
      (Ejemplo.mundo Ejemplo.escenario) = (Return (tmp_pdf Ejemplo.env), w')
    ∧ fs w' !! tmp_pdf Ejemplo.env = Some (PdfFile story figs)
    ∧ default EmptyFile
        (fs (generate_report parse_iso Ejemplo.env Ejemplo.autor
               (Ejemplo.mundo Ejemplo.escenario)).2 !! tmp_pdf Ejemplo.env)
      = PdfFile story figs
    ∧ "Descargar Reporte PDF" = "Descargar Reporte PDF"
    ∧ "reporte_inscritos.pdf" = "reporte_inscritos.pdf"
    ∧ "application/pdf" = "application/pdf".
Proof.
  apply (main_download_is_the_report parse_iso dias_enteros
           (Some Caso.columnas) Ejemplo.autor true Ejemplo.env
           (Ejemplo.mundo Ejemplo.escenario)).
  - vm_compute. do 12 apply list_elem_of_further. apply list_elem_of_here.
  - vm_compute. discriminate.
Defined.

(** X13. Through [main], a value of "Hora de inicio" that is no date is
    caught at the date-range metric (line 192), before [generate_report]
    is reached: the page shows the preview and the two totals, then the
    error, and the world is left as it was (no temporary file, DataFrame
    untouched), whether or not the button was pressed. *)
Theorem main_stops_at_unparsable_date
    parse dias columns author button env w :
  (∀ c, c ∈ required_columns → c ∈ columns) →
  Spec.has_unparsable parse (df w) = true →
  run_main parse dias (Some columns) author button env w
  = (Return tt,
     mkPagina w
       (mostrados (cabecera author) ++ vista_y_totales (df w)
        ++ [ st_error_str "Error al procesar el archivo: "
               ValueError_to_datetime;
             st_exception ValueError_to_datetime ]
        ++ mostrados barra_lateral)).
Proof.
  intros Hcols Hbad. rewrite run_main_unfold. cbv zeta.
  rewrite (proj2 (missing_columns_nil columns) Hcols).
  by rewrite (has_unparsable_hora_rows _ _ Hbad).
Qed.

Lemma main_stops_at_unparsable_date_witness :
  run_main parse_iso dias_enteros (Some Caso.columnas) Ejemplo.autor true
    Ejemplo.env (Ejemplo.mundo Ejemplo.fecha_mala)
  = (Return tt,
     mkPagina (Ejemplo.mundo Ejemplo.fecha_mala)
       (mostrados (cabecera Ejemplo.autor)
        ++ vista_y_totales (df (Ejemplo.mundo Ejemplo.fecha_mala))
        ++ [ st_error_str "Error al procesar el archivo: "
               ValueError_to_datetime;
             st_exception ValueError_to_datetime ]
        ++ mostrados barra_lateral)).
Proof.
  apply (main_stops_at_unparsable_date parse_iso dias_enteros Caso.columnas
           Ejemplo.autor true Ejemplo.env (Ejemplo.mundo Ejemplo.fecha_mala)).
  - intros c Hc. unfold required_columns in Hc.
    rewrite !elem_of_cons, elem_of_nil in Hc. unfold Caso.columnas.
    rewrite !elem_of_cons. destruct Hc as [->|[->|[->|[->|[]]]]]; tauto.
  - vm_compute. reflexivity.
Defined.

(** X14. When the page offers the download, its two totals agree with the
    report it carries: "Total Inscritos" is the total of the
    general-information block of the PDF, and "Total Cursos" is the number
    of bars of its chart. *)
Theorem main_totals_agree_with_report
    parse dias uploaded_file author button env w label story figs
    file_name mime :
  st_download_button label (PdfFile story figs) file_name mime
    ∈ shown (run_main parse dias uploaded_file author button env w).2 →
  tmp_pdf env ≠ tmp_chart env →
  ∃ total fig,
    figs = [fig]
    ∧ story !! 5
      = Some (Paragraph ("Total de personas inscritas: <b>" +:+ str_nat total
                         +:+ "</b>") Normal)
    ∧ st_metric "Total Inscritos" (Entero total)
        ∈ shown (run_main parse dias uploaded_file author button env w).2
    ∧ st_metric "Total Cursos" (Entero (length (bars fig)))
        ∈ shown (run_main parse dias uploaded_file author button env w).2.
Proof.
  intros Hin Hne.
  apply download_shown
    in Hin as (columns & rows & w2 & -> & Hm & -> & Hrows & Hgen & _).
  rewrite run_main_unfold. cbv zeta. rewrite Hm, Hrows, Hgen. cbn [snd shown].
  apply generar_reporte_pdf_Return in Hgen as (w1 & Hrun & Hbytes & _).
  rewrite (generate_report_after_conversion _ _ _ _ _ Hrows) in Hrun.
  destruct (generate_report_Return _ _ _ _ _ _ Hrun Hne)
    as (rows' & tmin & tmax & Hrows' & _ & _ & _ & _ & Hpdf).
  assert (rows' = rows) as -> by congruence.
  rewrite Hpdf in Hbytes. injection Hbytes as -> ->.
  exists (Spec.totalUniqueEnrollees (df w)), (bar_chart (conteo_cursos rows)).
  split; [done|]. split; [reflexivity|].
  split.
  - rewrite !elem_of_app. left. right. left. unfold vista_y_totales.
    rewrite (nunique_size (nombre <$> inscritos (df w))).
    do 4 apply list_elem_of_further. apply list_elem_of_here.
  - rewrite !elem_of_app. left. right. left. unfold vista_y_totales.
    rewrite bars_bar_chart, length_fmap, length_conteo_cursos.
    rewrite (curso_hora_rows _ _ _ Hrows).
    rewrite (nunique_size (curso <$> inscritos (df w))).
    do 5 apply list_elem_of_further. apply list_elem_of_here.
Qed.

Lemma main_totals_agree_with_report_witness :
  ∃ label story figs file_name mime total fig,
    st_download_button label (PdfFile story figs) file_name mime
      ∈ shown (run_main parse_iso dias_enteros (Some Caso.columnas)
                 Ejemplo.autor true Ejemplo.env
                 (Ejemplo.mundo Ejemplo.tres_correos)).2
    ∧ figs = [fig]
    ∧ story !! 5
      = Some (Paragraph ("Total de personas inscritas: <b>" +:+ str_nat total
                         +:+ "</b>") Normal)
    ∧ st_metric "Total Inscritos" (Entero total)
        ∈ shown (run_main parse_iso dias_enteros (Some Caso.columnas)
                   Ejemplo.autor true Ejemplo.env
                   (Ejemplo.mundo Ejemplo.tres_correos)).2
    ∧ st_metric "Total Cursos" (Entero (length (bars fig)))
        ∈ shown (run_main parse_iso dias_enteros (Some Caso.columnas)
                   Ejemplo.autor true Ejemplo.env
                   (Ejemplo.mundo Ejemplo.tres_correos)).2.
Proof.
  assert (∃ label story figs file_name mime,
            st_download_button label (PdfFile story figs) file_name mime
              ∈ shown (run_main parse_iso dias_enteros (Some Caso.columnas)
                         Ejemplo.autor true Ejemplo.env
                         (Ejemplo.mundo Ejemplo.tres_correos)).2)
    as (label & story & figs & file_name & mime & Hin).
  { eexists _, _, _, _, _. vm_compute.
    do 12 apply list_elem_of_further. apply list_elem_of_here. }
  exists label, story, figs, file_name, mime.
  destruct (main_totals_agree_with_report parse_iso dias_enteros
              (Some Caso.columnas) Ejemplo.autor true Ejemplo.env
              (Ejemplo.mundo Ejemplo.tres_correos) label story figs
              file_name mime Hin) as (total & fig & H).
  { vm_compute. discriminate. }
  exists total, fig. split; [exact Hin|exact H].
Defined.

(** X15. When the page offers the download and the temporary names were
    fresh, the run has left no file behind: the file system is what it was
    before the run. *)
Theorem main_success_leaves_no_file
    parse dias uploaded_file author button env w label data file_name mime :
  st_download_button label data file_name mime
    ∈ shown (run_main parse dias uploaded_file author button env w).2 →
  fs w !! tmp_pdf env = None →
  fs w !! tmp_chart env = None →
  fs (world (run_main parse dias uploaded_file author button env w).2) = fs w.
Proof.
  intros Hin Hpdf Hchart.
  apply download_shown
    in Hin as (columns & rows & w2 & -> & Hm & -> & Hrows & Hgen & _).
  rewrite run_main_unfold. cbv zeta. rewrite Hm, Hrows, Hgen. cbn [snd world].
  by apply (caller_removes_the_pdf _ _ _ _ _ _ Hgen).
Qed.

Lemma main_success_leaves_no_file_witness :
  fs (world (run_main parse_iso dias_enteros (Some Caso.columnas)
               Ejemplo.autor true Ejemplo.env
               (Caso.con_archivo Ejemplo.escenario)).2)
  = fs (Caso.con_archivo Ejemplo.escenario).
Proof.
  eapply (main_success_leaves_no_file parse_iso dias_enteros
            (Some Caso.columnas) Ejemplo.autor true Ejemplo.env
            (Caso.con_archivo Ejemplo.escenario)).
  - vm_compute. do 12 apply list_elem_of_further. apply list_elem_of_here.
  - vm_compute. reflexivity.
  - vm_compute. reflexivity.
Defined.

(** X16. On a sheet with the four columns and no record the page shows
    both totals as 0 and the date range as "nan días"; without the button
    nothing else happens, and with it the report fails with the error of
    [NaT.strftime], which is shown, and the two empty temporary files stay
    behind. *)
Theorem main_on_empty_sheet parse dias columns author button env w :
  (∀ c, c ∈ required_columns → c ∈ columns) →
  inscritos (df w) = [] →
  run_main parse dias (Some columns) author button env w
  = (Return tt,
     mkPagina
       (mkWorld (if button then tmp_created env (fs w) else fs w)
          (DatetimeFrame []))
       (mostrados (cabecera author)
        ++ [ st_success "Archivo cargado correctamente";
             st_subheader "Vista previa de los datos";
             st_dataframe (df w);
             st_subheader "Estadísticas generales";
             st_metric "Total Inscritos" (Entero 0);
             st_metric "Total Cursos" (Entero 0);
             st_metric "Rango de Fechas" (Texto "nan días");
             st_button "Generar Reporte PDF" ]
        ++ (if button
            then [ st_error_str "Error al procesar el archivo: "
                     ValueError_NaT_strftime;
                   st_exception ValueError_NaT_strftime ]
            else [])
        ++ mostrados barra_lateral)).
Proof.
  intros Hcols Hd. rewrite run_main_unfold. cbv zeta.
  rewrite (proj2 (missing_columns_nil columns) Hcols).
  rewrite (hora_rows_is_Some_nil parse _ Hd).
  unfold vista_y_totales. rewrite Hd.
  assert (head (df w) = df w) as ->.
  { destruct (df w) as [[|r rows]|[|r rows]]; done. }
  destruct button; [|reflexivity].
  rewrite generar_reporte_pdf_unfold, generate_report_unfold. reflexivity.
Qed.

Lemma main_on_empty_sheet_witness :
  run_main parse_iso dias_enteros (Some Caso.columnas) Ejemplo.autor true
    Ejemplo.env (Ejemplo.mundo Ejemplo.vacio)
  = (Return tt,
     mkPagina
       (mkWorld (tmp_created Ejemplo.env (fs (Ejemplo.mundo Ejemplo.vacio)))
          (DatetimeFrame []))
       (mostrados (cabecera Ejemplo.autor)
        ++ [ st_success "Archivo cargado correctamente";
             st_subheader "Vista previa de los datos";
             st_dataframe (df (Ejemplo.mundo Ejemplo.vacio));
             st_subheader "Estadísticas generales";
             st_metric "Total Inscritos" (Entero 0);
             st_metric "Total Cursos" (Entero 0);
             st_metric "Rango de Fechas" (Texto "nan días");
             st_button "Generar Reporte PDF" ]
        ++ [ st_error_str "Error al procesar el archivo: "
               ValueError_NaT_strftime;
             st_exception ValueError_NaT_strftime ]
        ++ mostrados barra_lateral)).
Proof.
  apply (main_on_empty_sheet parse_iso dias_enteros Caso.columnas
           Ejemplo.autor true Ejemplo.env (Ejemplo.mundo Ejemplo.vacio)).
  - intros c Hc. unfold required_columns in Hc.
    rewrite !elem_of_cons, elem_of_nil in Hc. unfold Caso.columnas.
    rewrite !elem_of_cons. destruct Hc as [->|[->|[->|[->|[]]]]]; tauto.
  - reflexivity.
Defined.
